(** * RepositoryService: the generic CRUD base service of biblioteca-back

    A shallow embedding of [src/commons/repository/repository.service.ts].
    The service is a thin pipeline over three external collaborators (the
    TypeORM repository, class-validator, class-transformer) and three
    members that concrete subclasses supply ([buildPartial] and the two
    hooks).  The collaborators are parameters of the development; the
    service methods are written over them as computations on an explicit
    world: the heap holding the caller's options objects, the state of the
    persistence layer, and the trace of calls the service has issued. *)

From stdpp Require Import base option list functions gmap strings.
From Stdlib Require Import ZArith Ascii String.

Local Open Scope string_scope.

(** ** JavaScript values and objects *)

(** Flat JavaScript values: what the fields of an entity, of a partial
    entity or of a DTO hold. *)
Inductive Val : Type :=
  | VUndefined
  | VNull
  | VBool (b : bool)
  | VNum (n : Z)
  | VStr (s : string).

#[global] Instance Val_eq_dec : EqDecision Val.
Proof. solve_decision. Defined.

(** A plain object: a finite map from property names to values.  Entities
    ([T]) and partial entities ([DeepPartial<T>]) are such objects. *)
Abbreviation Obj := (gmap string Val).

(** ** Outcomes of asynchronous calls *)

(** [ServiceException] is built from [{ message, errors }]. *)
Record ServiceExceptionData (VE : Type) : Type := mkServiceException {
  message : string;
  errors : list VE
}.
Arguments mkServiceException {VE} _ _.
Arguments message {VE} _.
Arguments errors {VE} _.

(** What a rejected promise carries: a [ServiceException], or any other
    error (of the persistence layer, of a hook, a [TypeError]). *)
Inductive Exn (VE : Type) : Type :=
  | ServiceException (data : ServiceExceptionData VE)
  | OtherError (name : string).
Arguments ServiceException {VE} _.
Arguments OtherError {VE} _.

(** A settled promise: fulfilled with a value or rejected with an error. *)
Inductive Outcome (VE A : Type) : Type :=
  | Resolved (a : A)
  | Rejected (e : Exn VE).
Arguments Resolved {VE A} _.
Arguments Rejected {VE A} _.

Definition outcome_map {VE A B} (f : A -> B) (o : Outcome VE A) : Outcome VE B :=
  match o with
  | Resolved a => Resolved (f a)
  | Rejected e => Rejected e
  end.

(** ** Query options *)

(** TypeORM find operators as far as the service builds them: a plain value
    (equality) and [Raw(getSql, parameters)]. *)
Inductive FindOperator : Type :=
  | Equal (v : Val)
  | Raw (getSql : string -> string) (parameters : gmap string string).

(** [FindOptionsWhere<T>]: property name to operator. *)
Abbreviation Where := (gmap string FindOperator).

(** Modelled from the spec: [PaginatedServiceFilters<T>]
    (commons/interfaces/paginated-service-filters is not among the sources).
    Section 3: "an input structure combining a where predicate, a free-text
    search string, a searchFields list, and take/skip pagination bounds".
    Every key is optional; [None] is an absent key. *)
Record PaginatedServiceFilters : Type := mkFilters {
  opt_where : option Where;
  search : option string;
  searchFields : option (list string);
  take : option nat;
  skip : option nat
}.

(** Modelled from the spec: [PaginatedResponse<T>]
    (commons/interfaces/paginated-response is not among the sources).
    Section 3: "{ data: Entity[], total: count, limit, offset }". *)
Record PaginatedResponse : Type := mkResponse {
  data : list Obj;
  total : nat;
  limit : option nat;
  offset : option nat
}.

(** TypeORM's [UpdateResult], of which the service reads [affected]. *)
Record UpdateResult : Type := mkUpdateResult {
  affected : option nat
}.

(** The object [{ affected }] that [remove] returns. *)
Record RemoveResult : Type := mkRemoveResult {
  removed_affected : option nat
}.

(** ** The persistence repository *)

(** An awaited call of a collaborator (the repository, a hook, the
    builder): it settles, and leaves the persistence layer in a new state. *)
Definition Async (VE DB A : Type) : Type := DB -> Outcome VE A * DB.

Module Repo.

(** The four methods of TypeORM's [Repository<T>] the service uses. *)
Record t (VE DB : Type) : Type := mk {
  findOneBy : Where -> Async VE DB (option Obj);
  findAndCount : option PaginatedServiceFilters -> Async VE DB (list Obj * nat);
  save : Obj -> Async VE DB Obj;
  softDelete : string -> Async VE DB UpdateResult
}.
Arguments findOneBy {VE DB} _ _ _.
Arguments findAndCount {VE DB} _ _ _.
Arguments save {VE DB} _ _ _.
Arguments softDelete {VE DB} _ _ _.

End Repo.

(** ** The world a service method runs in *)

Abbreviation loc := nat.

(** The calls the service issues, in order. *)
Inductive Event (T_DTO : Type) : Type :=
  | EValidateBeforeCreate (dto : T_DTO)
  | EValidateBeforeEdit (uuid : string) (dto : T_DTO)
  | EBuildPartial (dto : T_DTO)
  | EFindOneBy (w : Where)
  | EFindAndCount (opt : option PaginatedServiceFilters)
  | ESave (model : Obj)
  | ESoftDelete (criteria : string).
Arguments EValidateBeforeCreate {T_DTO} _.
Arguments EValidateBeforeEdit {T_DTO} _ _.
Arguments EBuildPartial {T_DTO} _.
Arguments EFindOneBy {T_DTO} _.
Arguments EFindAndCount {T_DTO} _.
Arguments ESave {T_DTO} _.
Arguments ESoftDelete {T_DTO} _.

(** Tests on events, for counting calls. *)
Definition is_save {T_DTO} (e : Event T_DTO) : bool :=
  match e with ESave _ => true | _ => false end.

Definition is_buildPartial {T_DTO} (e : Event T_DTO) : bool :=
  match e with EBuildPartial _ => true | _ => false end.

Record World (DB T_DTO : Type) : Type := mkWorld {
  heap : loc -> PaginatedServiceFilters;
  db : DB;
  trace : list (Event T_DTO)
}.
Arguments mkWorld {DB T_DTO} _ _ _.
Arguments heap {DB T_DTO} _ _.
Arguments db {DB T_DTO} _.
Arguments trace {DB T_DTO} _.

(** ** The monad of service computations *)

Module M.

Definition t (VE DB T_DTO A : Type) : Type :=
  World DB T_DTO -> Outcome VE A * World DB T_DTO.

Section Ops.
Context {VE DB T_DTO : Type}.

Definition ret {A} (a : A) : t VE DB T_DTO A := fun w => (Resolved a, w).

Definition throw {A} (e : Exn VE) : t VE DB T_DTO A := fun w => (Rejected e, w).

(** [await]: continue with the value, or stop at the rejection. *)
Definition bind {A B} (c : t VE DB T_DTO A) (k : A -> t VE DB T_DTO B)
  : t VE DB T_DTO B :=
  fun w =>
  match c w with
  | (Resolved a, w') => k a w'
  | (Rejected e, w') => (Rejected e, w')
  end.

(** Issue a call: record it in the trace, then let it act on the
  persistence state. *)
Definition call {A} (ev : Event T_DTO) (c : Async VE DB A)
  : t VE DB T_DTO A :=
  fun w =>
  let '(r, d) := c (db w) in
  (r, mkWorld (heap w) d (trace w ++ [ev])).

(** Read the object a reference points to. *)
Definition deref (l : loc) : t VE DB T_DTO PaginatedServiceFilters :=
  fun w => (Resolved (heap w l), w).

(** Overwrite the object a reference points to. *)
Definition assign (l : loc) (o : PaginatedServiceFilters) : t VE DB T_DTO unit :=
  fun w => (Resolved tt, mkWorld (<[l := o]> (heap w)) (db w) (trace w)).

(** [Array.prototype.forEach]. *)
Fixpoint forEach {A} (xs : list A) (f : A -> t VE DB T_DTO unit)
  : t VE DB T_DTO unit :=
  match xs with
  | [] => ret tt
  | x :: xs' => bind (f x) (fun _ => forEach xs' f)
  end.
End Ops.

End M.

Declare Scope service_scope.
Delimit Scope service_scope with service.
Notation "x <- c ;; k" := (M.bind c (fun x => k))
  (at level 100, c at next level, right associativity) : service_scope.
Notation "c ;;; k" := (M.bind c (fun _ => k))
  (at level 100, right associativity) : service_scope.

(** ** The service *)

Local Open Scope service_scope.

(** [x?.length] of an optional array or string, and its truthiness. *)
Definition opt_length {A} (len : A -> nat) (x : option A) : option nat :=
  len <$> x.

Definition truthy (n : option nat) : bool :=
  match n with
  | Some (S _) => true
  | _ => false
  end.

(** A value spliced into a template literal: an absent one prints as
    [undefined]. *)
Definition interpolate (s : option string) : string :=
  match s with
  | Some s => s
  | None => "undefined"
  end.

(** The SQL fragment of the search clause:
    [(v) => `LOWER(${v}) Like LOWER(:value)`]. *)
Definition lowerLikeSql (v : string) : string :=
  "LOWER(" +:+ v +:+ ") Like LOWER(:value)".

(** The operator [buildOptionsToFilter] stores under each search field: the
    case-insensitive [Like] against [%search%]. *)
Definition searchClause (search : option string) : FindOperator :=
  Raw lowerLikeSql {[ "value" := "%" +:+ interpolate search +:+ "%" ]}.

(** [object[key] = value] on a plain object, as far as the properties of
    its own go.  [__proto__] is the accessor inherited from
    [Object.prototype]: assigning an object to it replaces the prototype of
    [object] and gives it no property. *)
Definition assignProperty (key : string) (value : FindOperator) (object : Where)
  : Where :=
  if decide (key = "__proto__") then object else <[key := value]> object.

(** Field updates of an options object. *)
Definition set_where (wh : option Where) (o : PaginatedServiceFilters)
  : PaginatedServiceFilters :=
  mkFilters wh (search o) (searchFields o) (take o) (skip o).

Definition delete_search (o : PaginatedServiceFilters) : PaginatedServiceFilters :=
  mkFilters (opt_where o) None (searchFields o) (take o) (skip o).

(** The [ValidationError] of the specification: the [ServiceException]
    that [validateDto] throws on the violations [errs]. *)
Definition validationError {VE} (errs : list VE) : Exn VE :=
  ServiceException (mkServiceException "Por favor, confira os dados preenchidos." errs).

(** The calls issued between two worlds, and how many of them satisfy a
    test. *)
Definition issued {DB T_DTO} (w w' : World DB T_DTO) : list (Event T_DTO) :=
  drop (List.length (trace w)) (trace w').

Definition count {A} (p : A -> bool) (l : list A) : nat :=
  List.length (List.filter p l).

(** The guard [options?.searchFields?.length && options?.search?.length]
    on a defined [options]. *)
Definition searching (o : PaginatedServiceFilters) : bool :=
  truthy (opt_length (@List.length string) (searchFields o))
  && truthy (opt_length String.length (search o)).

(** Modelled from the spec: the soft-delete contract of the persistence
    repository (section 6, "soft-delete returns a count of affected rows";
    section 8, "[{ affected: 1 }] for an existing record, [{ affected: 0 }]
    for a non-existent one"; section 4.1, "marks deleted rather than
    physically removing").  It speaks of the calls that resolve: a layer
    may reject.  [stored d uuid] tells whether the layer in state [d]
    physically holds a record under [uuid], [deleted d uuid] whether that
    record is marked deleted. *)
Record SoftDeleteContract {VE DB} (repository : Repo.t VE DB)
    (stored deleted : DB -> string -> bool) : Prop := mkSoftDeleteContract {
  softDelete_count : forall uuid d r d',
    Repo.softDelete repository uuid d = (Resolved r, d') ->
    affected r = Some (if stored d uuid then 1 else 0);
  softDelete_keeps : forall uuid d r d',
    Repo.softDelete repository uuid d = (Resolved r, d') ->
    forall u, stored d' u = stored d u;
  softDelete_marks : forall uuid d r d',
    Repo.softDelete repository uuid d = (Resolved r, d') ->
    stored d uuid = true -> deleted d' uuid = true
}.

(** What a method that is not [async] hands back: a promise, or
    [undefined]. *)
Inductive Returned (VE A : Type) : Type :=
  | Undefined
  | PromiseOf (p : Outcome VE A).
Arguments Undefined {VE A}.
Arguments PromiseOf {VE A} _.

(** [promise[i]]: a Promise object has no indexed property. *)
Definition promiseIndex {VE A} (p : Outcome VE A) (i : nat) : Returned VE A :=
  Undefined.

(** The default body of both hooks: [return;]. *)
Definition noHook {VE DB} : Async VE DB unit := fun d => (Resolved tt, d).

Section RepositoryService.

Context {VE DB T_DTO : Type}.

(** The injected TypeORM repository ([this.repository]). *)
Variable repository : Repo.t VE DB.
(** class-transformer's [plainToInstance], at [this.dtoConstructor]. *)
Variable plainToInstance : T_DTO -> T_DTO.
(** class-validator's [validate] and [isUUID]. *)
Variable validate : T_DTO -> list VE.
Variable isUUID : string -> bool.
(** The abstract [buildPartial] and the two overridable hooks. *)
Variable buildPartial : T_DTO -> Async VE DB Obj.
Variable validateBeforeCreate : T_DTO -> Async VE DB unit.
Variable validateBeforeEdit : string -> T_DTO -> Async VE DB unit.

Abbreviation Svc := (M.t VE DB T_DTO).

Definition validateDto (json : T_DTO) : Svc T_DTO :=
  let dto := plainToInstance json in
  let errors := validate dto in
  match List.length errors with
  | S _ =>
      let message := "Por favor, confira os dados preenchidos." in
      M.throw (ServiceException (mkServiceException message errors))
  | O => M.ret dto
  end.

(** The body of the [forEach] callback: [options.where[field] = Raw(...)].
    Writing a property of an absent [where] is a [TypeError]. *)
Definition setSearchField (l : loc) (field : string) : Svc unit :=
  options <- M.deref l ;;
  match opt_where options with
  | Some wh =>
      let clause := searchClause (search options) in
      M.assign l (set_where (Some (assignProperty field clause wh)) options)
  | None => M.throw (OtherError "TypeError")
  end.

(** [options] is a reference to the caller's object, or [undefined]. *)
Definition buildOptionsToFilter (options : option loc) : Svc (option loc) :=
  match options with
  | None => M.ret None
  | Some l =>
      o <- M.deref l ;;
      if searching o then
        M.assign l (set_where (Some ∅) o) ;;;
        M.forEach (default [] (searchFields o)) (setSearchField l) ;;;
        (o' <- M.deref l ;; M.assign l (delete_search o')) ;;;
        M.ret (Some l)
      else M.ret (Some l)
  end.

(** The criteria [{ uuid }]. *)
Definition byUuid (uuid : string) : Where := {[ "uuid" := Equal (VStr uuid) ]}.

Definition get (uuid : string) : Svc (option Obj) :=
  if negb (isUUID uuid) then M.ret None
  else M.call (EFindOneBy (byUuid uuid)) (Repo.findOneBy repository (byUuid uuid)).

(** The object a reference designates when the call is issued
    ([opt?.take] on [undefined] is [undefined]). *)
Definition snapshot (opt : option loc) : Svc (option PaginatedServiceFilters) :=
  match opt with
  | None => M.ret None
  | Some l => o <- M.deref l ;; M.ret (Some o)
  end.

Definition filter (options : option loc) : Svc PaginatedResponse :=
  opt <- buildOptionsToFilter options ;;
  arg <- snapshot opt ;;
  res <- M.call (EFindAndCount arg) (Repo.findAndCount repository arg) ;;
  cur <- snapshot opt ;;
  M.ret (mkResponse (fst res) (snd res) (cur ≫= take) (cur ≫= skip)).

Definition save (model : Obj) (w : World DB T_DTO)
  : Returned VE Obj * World DB T_DTO :=
  let '(p, w') := M.call (ESave model) (Repo.save repository model) w in
  (promiseIndex p 0, w').

Definition create (data : T_DTO) : Svc Obj :=
  dto <- validateDto data ;;
  M.call (EValidateBeforeCreate dto) (validateBeforeCreate dto) ;;;
  model <- M.call (EBuildPartial dto) (buildPartial dto) ;;
  M.call (ESave model) (Repo.save repository model).

Definition edit (uuid : string) (data : T_DTO) : Svc Obj :=
  dto <- validateDto data ;;
  M.call (EValidateBeforeEdit uuid dto) (validateBeforeEdit uuid dto) ;;;
  model <- M.call (EBuildPartial dto) (buildPartial dto) ;;
  let model := <["uuid" := VStr uuid]> model in
  M.call (ESave model) (Repo.save repository model).

Definition remove (uuid : string) : Svc RemoveResult :=
  result <- M.call (ESoftDelete uuid) (Repo.softDelete repository uuid) ;;
  M.ret (mkRemoveResult (affected result)).

End RepositoryService.

(** ** Notions for the failure and composition statements *)

(** [buildPartial] followed by [model.uuid = uuid]: the builder [edit]
    runs in effect. *)
Definition forceUuid {VE DB T_DTO} (uuid : string)
    (buildPartial : T_DTO -> Async VE DB Obj) : T_DTO -> Async VE DB Obj :=
  fun dto d =>
    let '(r, d') := buildPartial dto d in
    (outcome_map (insert "uuid" (VStr uuid)) r, d').

(** An event of [edit] read as the event of [create] at the same step. *)
Definition asCreate {T_DTO} (ev : Event T_DTO) : Event T_DTO :=
  match ev with
  | EValidateBeforeEdit _ dto => EValidateBeforeCreate dto
  | _ => ev
  end.

(** The repository calls other than [save]. *)
Definition is_query {T_DTO} (e : Event T_DTO) : bool :=
  match e with
  | EFindOneBy _ | EFindAndCount _ | ESoftDelete _ => true
  | _ => false
  end.

(** ** An in-memory persistence layer *)

(** Modelled from the spec: the persistence repository of section 6, an
    external collaborator (TypeORM over a relational table).  "Must expose
    find-one-by-identifier, find-and-count-by-predicate-with-pagination,
    save/upsert, and soft-delete-by-identifier. Contract assumed:
    soft-delete returns a count of affected rows; find-and-count returns
    both the page and the total matching count under the same predicate."
    It instantiates the parameters of the service on concrete data. *)
Module MemRepo.

Record Row : Type := mkRow {
  fields : Obj;
  deletedAt : option nat
}.

(** The table, keyed by the primary column [uuid]. *)
Record Table : Type := mkTable {
  rows : gmap string Row;
  clock : nat
}.

Definition isLive (r : Row) : bool :=
  match deletedAt r with
  | None => true
  | Some _ => false
  end.

Definition lowerAscii (c : ascii) : ascii :=
  let n := nat_of_ascii c in
  if (65 <=? n)%nat && (n <=? 90)%nat then ascii_of_nat (n + 32) else c.

Fixpoint lower (s : string) : string :=
  match s with
  | EmptyString => EmptyString
  | String c s' => String (lowerAscii c) (lower s')
  end.

(** SQL [LIKE]: [%] stands for any run of characters, [_] for one. *)
Fixpoint like (pattern text : string) : bool :=
  match pattern with
  | EmptyString =>
      match text with
      | EmptyString => true
      | String _ _ => false
      end
  | String p pattern' =>
      if Ascii.eqb p "%"%char then
        (fix skipSome (t : string) : bool :=
           like pattern' t ||
           match t with
           | EmptyString => false
           | String _ t' => skipSome t'
           end) text
      else
        match text with
        | EmptyString => false
        | String c text' =>
            (Ascii.eqb p "_"%char || Ascii.eqb p c) && like pattern' text'
        end
  end.

(** The characters a [LIKE] pattern does not read as themselves: the two
    wildcards, and the backslash, which engines such as PostgreSQL take as
    the escape character; and the strings without any of them. *)
Definition isWildcard (c : ascii) : bool :=
  Ascii.eqb c "%"%char || Ascii.eqb c "_"%char || Ascii.eqb c "\"%char.

Fixpoint wildcardFree (s : string) : bool :=
  match s with
  | EmptyString => true
  | String c s' => negb (isWildcard c) && wildcardFree s'
  end.

(** One condition of a [where] object against a row: equality, or the raw
    fragment [LOWER(column) Like LOWER(:value)], the one fragment this
    engine evaluates. *)
Definition holds (r : Row) (cond : string * FindOperator) : bool :=
  match cond with
  | (column, Equal v) => bool_decide (fields r !! column = Some v)
  | (column, Raw getSql parameters) =>
      String.eqb (getSql column) ("LOWER(" +:+ column +:+ ") Like LOWER(:value)")
      && match fields r !! column, parameters !! "value" with
         | Some (VStr text), Some pattern => like (lower pattern) (lower text)
         | _, _ => false
         end
  end.

Definition matches (wh : Where) (r : Row) : bool :=
  forallb (holds r) (map_to_list wh).

(** The rows a query sees: not soft-deleted, and matching [wh]. *)
Definition selected (wh : option Where) (t : Table) : list Row :=
  List.filter (fun r => isLive r && matches (default ∅ wh) r)
              (snd <$> map_to_list (rows t)).

Definition page {A} (o : option PaginatedServiceFilters) (l : list A) : list A :=
  let l := drop (default 0 (o ≫= skip)) l in
  match o ≫= take with
  | Some n => List.firstn n l
  | None => l
  end.

Definition digit (n : nat) : string :=
  String (ascii_of_nat (48 + n mod 10)) EmptyString.

Definition freshUuid (t : Table) : string :=
  let n := clock t in
  "00000000-0000-4000-8000-00000000"
    +:+ digit (n / 1000) +:+ digit (n / 100) +:+ digit (n / 10) +:+ digit n.

(** Upsert: the columns of [model] over those already stored. *)
Definition upsert (uuid : string) (model : Obj) (t : Table) : Row :=
  match rows t !! uuid with
  | Some r => mkRow (model ∪ fields r) (deletedAt r)
  | None => mkRow model None
  end.

Definition markDeleted (at_ : nat) (r : Row) : Row :=
  mkRow (fields r) (Some at_).

(** The identifiers physically present in the table. *)
Definition stored (t : Table) (uuid : string) : bool :=
  bool_decide (is_Some (rows t !! uuid)).

(** The identifiers whose row is marked deleted. *)
Definition deleted (t : Table) (uuid : string) : bool :=
  match rows t !! uuid with
  | Some r => negb (isLive r)
  | None => false
  end.

Section Methods.
Context {VE : Type}.

Definition findOneBy (wh : Where) : Async VE Table (option Obj) :=
  fun t => (Resolved (fields <$> head (selected (Some wh) t)), t).

Definition findAndCount (o : option PaginatedServiceFilters)
  : Async VE Table (list Obj * nat) :=
  fun t =>
    let found := selected (o ≫= opt_where) t in
    (Resolved (fields <$> page o found, List.length found), t).

Definition save (model : Obj) : Async VE Table Obj :=
  fun t =>
    let uuid :=
      match model !! "uuid" with
      | Some (VStr uuid) => uuid
      | _ => freshUuid t
      end in
    let r := upsert uuid (<["uuid" := VStr uuid]> model) t in
    (Resolved (fields r), mkTable (<[uuid := r]> (rows t)) (S (clock t))).

Definition softDelete (criteria : string) : Async VE Table UpdateResult :=
  fun t =>
    (Resolved (mkUpdateResult (Some (if stored t criteria then 1 else 0))),
     mkTable (alter (markDeleted (clock t)) criteria (rows t)) (S (clock t))).

Definition repository : Repo.t VE Table :=
  Repo.mk VE Table findOneBy findAndCount save softDelete.

(** The same table behind a [uuid]-typed primary column: the engine rejects
    a criteria that is not a UUID ("invalid input syntax for type uuid")
    instead of matching no row. *)
Definition softDeleteTyped (isUUID : string -> bool) (criteria : string)
  : Async VE Table UpdateResult :=
  fun t =>
    if isUUID criteria then softDelete criteria t
    else (Rejected (OtherError "QueryFailedError"), t).

Definition typedRepository (isUUID : string -> bool) : Repo.t VE Table :=
  Repo.mk VE Table findOneBy findAndCount save (softDeleteTyped isUUID).

End Methods.

End MemRepo.

(** ** A concrete service: books *)

(** Concrete collaborators for one entity type, on which the statements
    below are exercised: a book has a required [title] and an optional
    integer [year]. *)
Module Sample.

Definition isHexDigit (c : ascii) : bool :=
  let n := nat_of_ascii c in
  ((48 <=? n)%nat && (n <=? 57)%nat)
  || ((65 <=? n)%nat && (n <=? 70)%nat)
  || ((97 <=? n)%nat && (n <=? 102)%nat).

(** Read [n] hexadecimal digits off the front of [s]. *)
Fixpoint hexRun (n : nat) (s : string) : option string :=
  match n with
  | O => Some s
  | S n' =>
      match s with
      | String c s' => if isHexDigit c then hexRun n' s' else None
      | EmptyString => None
      end
  end.

Fixpoint hexGroups (groups : list nat) (s : string) : bool :=
  match groups with
  | [] => false
  | [g] =>
      match hexRun g s with
      | Some EmptyString => true
      | _ => false
      end
  | g :: groups' =>
      match hexRun g s with
      | Some (String c s') => Ascii.eqb c "-"%char && hexGroups groups' s'
      | _ => false
      end
  end.

(** Modelled from the spec: "a syntactically valid UUID" (class-validator's
    [isUUID] with no version): 8-4-4-4-12 hexadecimal digits. *)
Definition isUUID (s : string) : bool := hexGroups [8; 4; 4; 4; 12] s.

(** The DTO is a plain object; [plainToInstance] keeps its properties. *)
Definition plainToInstance (json : Obj) : Obj := json.

(** The declared rules: [title] is a non-empty string (required-field
    rule), [year], when present, is a number (format rule). *)
Definition validate (dto : Obj) : list string :=
  match dto !! "title" with
  | Some (VStr (String _ _)) => []
  | _ => ["title should not be empty"]
  end ++
  match dto !! "year" with
  | None | Some (VNum _) => []
  | Some _ => ["year must be an integer number"]
  end.

(** A builder that copies every property of the DTO. *)
Definition buildPartial {DB} (dto : Obj) : Async string DB Obj :=
  fun d => (Resolved dto, d).

(** A builder that fails (a related record that cannot be resolved). *)
Definition buildPartialRejects {DB} (dto : Obj) : Async string DB Obj :=
  fun d => (Rejected (OtherError "NotFound"), d).

Definition book (uuid title : string) : Obj :=
  {[ "uuid" := VStr uuid; "title" := VStr title ]}.

Definition uuidA : string := "123e4567-e89b-42d3-a456-426614174000".
Definition uuidB : string := "9b2c6f1e-0d3a-4c5b-8e7f-001122334455".

(** A table holding one live book under [uuidA]. *)
Definition table : MemRepo.Table :=
  MemRepo.mkTable {[ uuidA := MemRepo.mkRow (book uuidA "Annals") None ]} 7.

Definition options (search : option string) (searchFields : option (list string))
  : PaginatedServiceFilters :=
  mkFilters (Some {[ "year" := Equal (VNum 1999) ]}) search searchFields (Some 10) (Some 0).

(** A world whose location [0] holds the given options object. *)
Definition world (o : PaginatedServiceFilters) : World MemRepo.Table Obj :=
  mkWorld (fun _ => o) table [].

Definition start : World MemRepo.Table Obj := world (options None None).

(** DTOs: a valid one, one with an empty title, and a valid one that also
    carries an identity of its own. *)
Definition dune : Obj := {[ "title" := VStr "Dune" ]}.
Definition untitled : Obj := {[ "title" := VStr "" ]}.
Definition duneAsB : Obj := {[ "title" := VStr "Dune"; "uuid" := VStr uuidB ]}.

(** The service over the in-memory table, with the default hooks. *)
Definition repository : Repo.t string MemRepo.Table := MemRepo.repository.

Definition createBook (data : Obj) : M.t string MemRepo.Table Obj Obj :=
  create repository plainToInstance validate buildPartial (fun _ => noHook) data.

Definition editBook (uuid : string) (data : Obj)
  : M.t string MemRepo.Table Obj Obj :=
  edit repository plainToInstance validate buildPartial (fun _ _ => noHook) uuid data.

(** The same [create] over the failing builder. *)
Definition createBookRejecting (data : Obj) : M.t string MemRepo.Table Obj Obj :=
  create repository plainToInstance validate buildPartialRejects
         (fun _ => noHook) data.

(** The row of [table], and the service over the [uuid]-typed table. *)
Definition annals : MemRepo.Row := MemRepo.mkRow (book uuidA "Annals") None.

Definition typedRepository : Repo.t string MemRepo.Table :=
  MemRepo.typedRepository isUUID.

(** A hook that refuses (a business rule that fails). *)
Definition refuse {DB} : Async string DB unit :=
  fun d =>
    (Rejected (ServiceException (mkServiceException "Livro ja cadastrado." [])), d).

End Sample.

(** * Properties *)

(** ** Running computations *)

Section Running.

Context {VE DB T_DTO : Type}.
Implicit Types w : World DB T_DTO.

Lemma bind_resolved {A B} (c : M.t VE DB T_DTO A) (k : A -> M.t VE DB T_DTO B) w a w1 :
  c w = (Resolved a, w1) -> M.bind c k w = k a w1.
Proof. intros Hc. unfold M.bind. now rewrite Hc. Qed.

Lemma bind_rejected {A B} (c : M.t VE DB T_DTO A) (k : A -> M.t VE DB T_DTO B) w e w1 :
  c w = (Rejected e, w1) -> M.bind c k w = (Rejected e, w1).
Proof. intros Hc. unfold M.bind. now rewrite Hc. Qed.

Lemma call_run {A} (ev : Event T_DTO) (c : Async VE DB A) w :
  M.call ev c w
  = (fst (c (db w)), mkWorld (heap w) (snd (c (db w))) (trace w ++ [ev])).
Proof. unfold M.call. now destruct (c (db w)). Qed.

Lemma call_resolved {A} (ev : Event T_DTO) (c : Async VE DB A) w a d :
  c (db w) = (Resolved a, d) ->
  M.call ev c w = (Resolved a, mkWorld (heap w) d (trace w ++ [ev])).
Proof. intros Hc. rewrite call_run, Hc. reflexivity. Qed.

Lemma call_rejected {A} (ev : Event T_DTO) (c : Async VE DB A) w e d :
  c (db w) = (Rejected e, d) ->
  M.call ev c w = (Rejected e, mkWorld (heap w) d (trace w ++ [ev])).
Proof. intros Hc. rewrite call_run, Hc. reflexivity. Qed.

(** The calls issued by a run that appended [evs] to the trace. *)
Lemma issued_app (h : loc -> PaginatedServiceFilters) (d : DB) w
    (evs : list (Event T_DTO)) :
  issued w (mkWorld h d (trace w ++ evs)) = evs.
Proof. unfold issued. simpl. apply drop_app_length. Qed.

Lemma issued_refl w : issued w w = [].
Proof. unfold issued. apply drop_all. Qed.

End Running.

(** ** Validation, creation and edition *)

Section Pipelines.

Context {VE DB T_DTO : Type}.
Variable repository : Repo.t VE DB.
Variable plainToInstance : T_DTO -> T_DTO.
Variable validate : T_DTO -> list VE.
Variable buildPartial : T_DTO -> Async VE DB Obj.
Variable validateBeforeCreate : T_DTO -> Async VE DB unit.
Variable validateBeforeEdit : string -> T_DTO -> Async VE DB unit.
Implicit Types w : World DB T_DTO.

Lemma validateDto_invalid (data : T_DTO) w :
  validate (plainToInstance data) <> [] ->
  validateDto plainToInstance validate data w
  = (Rejected (validationError (validate (plainToInstance data))), w).
Proof.
  intros Hne. unfold validateDto.
  destruct (validate (plainToInstance data)) as [|v errs]; [contradiction|].
  reflexivity.
Qed.

Lemma validateDto_valid (data : T_DTO) w :
  validate (plainToInstance data) = [] ->
  validateDto plainToInstance validate data w = (Resolved (plainToInstance data), w).
Proof. intros Hnil. unfold validateDto. now rewrite Hnil. Qed.

(** C1. A DTO with at least one rule violation makes both [create] and
    [edit] fail with the [ServiceException] that carries the user-facing
    message and the list of violations; the world is left as it was: no
    call is recorded (in particular none on the persistence layer) and the
    persisted state is the same. *)
Theorem invalid_dto_rejected_before_persistence (uuid : string) (data : T_DTO) w :
  validate (plainToInstance data) <> [] ->
  create repository plainToInstance validate buildPartial validateBeforeCreate data w
  = (Rejected (validationError (validate (plainToInstance data))), w)
  /\ edit repository plainToInstance validate buildPartial validateBeforeEdit uuid data w
     = (Rejected (validationError (validate (plainToInstance data))), w).
Proof.
  intros Hne. split.
  - unfold create. eapply bind_rejected, validateDto_invalid, Hne.
  - unfold edit. eapply bind_rejected, validateDto_invalid, Hne.
Qed.

(** [create] on a valid DTO, up to the builder. *)
Lemma create_after_hook (data : T_DTO) w d1 :
  validate (plainToInstance data) = [] ->
  validateBeforeCreate (plainToInstance data) (db w) = (Resolved tt, d1) ->
  create repository plainToInstance validate buildPartial validateBeforeCreate data w
  = M.bind (M.call (EBuildPartial (plainToInstance data))
                   (buildPartial (plainToInstance data)))
           (fun model => M.call (ESave model) (Repo.save repository model))
           (mkWorld (heap w) d1
                    (trace w ++ [EValidateBeforeCreate (plainToInstance data)])).
Proof.
  intros Hvalid Hhook. unfold create.
  rewrite (bind_resolved _ _ _ _ _ (validateDto_valid data w Hvalid)).
  now rewrite (bind_resolved _ _ _ _ _ (call_resolved _ _ w tt d1 Hhook)).
Qed.

(** [create] when [buildPartial] rejects: the rejection is the result and
    [save] is never reached. *)
Lemma create_builder_rejected (data : T_DTO) w d1 e d2 :
  validate (plainToInstance data) = [] ->
  validateBeforeCreate (plainToInstance data) (db w) = (Resolved tt, d1) ->
  buildPartial (plainToInstance data) d1 = (Rejected e, d2) ->
  create repository plainToInstance validate buildPartial validateBeforeCreate data w
  = (Rejected e,
     mkWorld (heap w) d2
             (trace w ++ [EValidateBeforeCreate (plainToInstance data);
                          EBuildPartial (plainToInstance data)])).
Proof.
  intros Hvalid Hhook Hbuild.
  rewrite (create_after_hook data w d1 Hvalid Hhook).
  erewrite bind_rejected by (apply call_rejected; exact Hbuild).
  simpl. now rewrite <- app_assoc.
Qed.

(** C2, as the code has it. When the DTO passes validation and the create
    hook does not fail: if [buildPartial] resolves to [model], [create] has
    called the hook, then [buildPartial] once, then the persistence layer's
    [save] once on [model], and returns what that [save] returned; if
    [buildPartial] rejects, [create] rejects with the same error, having
    called [buildPartial] once and [save] not at all. *)
Theorem create_valid_pipeline (data : T_DTO) w d1 :
  validate (plainToInstance data) = [] ->
  validateBeforeCreate (plainToInstance data) (db w) = (Resolved tt, d1) ->
  (forall (model : Obj) d2,
      buildPartial (plainToInstance data) d1 = (Resolved model, d2) ->
      exists w',
        create repository plainToInstance validate buildPartial
               validateBeforeCreate data w
        = (fst (Repo.save repository model d2), w')
        /\ heap w' = heap w
        /\ db w' = snd (Repo.save repository model d2)
        /\ issued w w' = [EValidateBeforeCreate (plainToInstance data);
                          EBuildPartial (plainToInstance data);
                          ESave model]
        /\ count is_buildPartial (issued w w') = 1
        /\ count is_save (issued w w') = 1)
  /\ (forall e d2,
         buildPartial (plainToInstance data) d1 = (Rejected e, d2) ->
         exists w',
           create repository plainToInstance validate buildPartial
                  validateBeforeCreate data w
           = (Rejected e, w')
           /\ heap w' = heap w
           /\ db w' = d2
           /\ issued w w' = [EValidateBeforeCreate (plainToInstance data);
                             EBuildPartial (plainToInstance data)]
           /\ count is_buildPartial (issued w w') = 1
           /\ count is_save (issued w w') = 0).
Proof.
  intros Hvalid Hhook. split.
  - intros model d2 Hbuild.
    rewrite (create_after_hook data w d1 Hvalid Hhook).
    erewrite bind_resolved by (apply call_resolved; exact Hbuild).
    rewrite call_run. simpl. eexists. split; [reflexivity|].
    rewrite <- !app_assoc. simpl. rewrite issued_app.
    repeat split.
  - intros e d2 Hbuild.
    rewrite (create_builder_rejected data w d1 e d2 Hvalid Hhook Hbuild).
    eexists. split; [reflexivity|]. simpl. rewrite issued_app.
    repeat split.
Qed.

(** [edit] on a valid DTO, up to the builder. *)
Lemma edit_after_hook (uuid : string) (data : T_DTO) w d1 :
  validate (plainToInstance data) = [] ->
  validateBeforeEdit uuid (plainToInstance data) (db w) = (Resolved tt, d1) ->
  edit repository plainToInstance validate buildPartial validateBeforeEdit uuid data w
  = M.bind (M.call (EBuildPartial (plainToInstance data))
                   (buildPartial (plainToInstance data)))
           (fun model =>
              M.call (ESave (<["uuid" := VStr uuid]> model))
                     (Repo.save repository (<["uuid" := VStr uuid]> model)))
           (mkWorld (heap w) d1
                    (trace w ++ [EValidateBeforeEdit uuid (plainToInstance data)])).
Proof.
  intros Hvalid Hhook. unfold edit.
  rewrite (bind_resolved _ _ _ _ _ (validateDto_valid data w Hvalid)).
  now rewrite (bind_resolved _ _ _ _ _ (call_resolved _ _ w tt d1 Hhook)).
Qed.

(** Every way [edit] can run, by the calls it issues: none, the hook alone,
    the hook and the builder, or these and one [save] of a partial entity
    whose [uuid] has been overwritten. *)
Lemma edit_issued (uuid : string) (data : T_DTO) w :
  let dto := plainToInstance data in
  let w' := snd (edit repository plainToInstance validate buildPartial
                      validateBeforeEdit uuid data w) in
  issued w w' = []
  \/ issued w w' = [EValidateBeforeEdit uuid dto]
  \/ issued w w' = [EValidateBeforeEdit uuid dto; EBuildPartial dto]
  \/ exists built,
       issued w w' = [EValidateBeforeEdit uuid dto; EBuildPartial dto;
                      ESave (<["uuid" := VStr uuid]> built)].
Proof.
  intros dto w'. subst w'.
  destruct (validate (plainToInstance data)) as [|v errs] eqn:Hvalid.
  - destruct (validateBeforeEdit uuid dto (db w)) as [[[]|e] d1] eqn:Hhook.
    + rewrite (edit_after_hook uuid data w d1 Hvalid Hhook). fold dto.
      destruct (buildPartial dto d1) as [[built|e] d2] eqn:Hbuild.
      * right. right. right. exists built.
        erewrite bind_resolved by (apply call_resolved; exact Hbuild).
        rewrite call_run. simpl. rewrite <- !app_assoc. apply issued_app.
      * right. right. left.
        erewrite bind_rejected by (apply call_rejected; exact Hbuild).
        simpl. rewrite <- !app_assoc. apply issued_app.
    + right. left. unfold edit.
      rewrite (bind_resolved _ _ _ _ _ (validateDto_valid data w Hvalid)).
      erewrite bind_rejected by (apply call_rejected; exact Hhook).
      apply issued_app.
  - left. unfold edit.
    erewrite bind_rejected
      by (apply validateDto_invalid; rewrite Hvalid; discriminate).
    apply issued_refl.
Qed.

(** C3. Whatever partial entity [edit uuid data] hands to the persistence
    layer's [save] has [uuid] as its identity field; and on a valid DTO
    whose hook passes and whose builder resolves to [built], it is [built]
    with its [uuid] overwritten that is saved, whatever identity [built]
    carried. *)
Theorem edit_forces_identity (uuid : string) (data : T_DTO) w :
  let dto := plainToInstance data in
  let run := edit repository plainToInstance validate buildPartial
                  validateBeforeEdit uuid data w in
  (forall model : Obj,
      ESave model ∈ issued w (snd run) -> model !! "uuid" = Some (VStr uuid))
  /\ (forall d1 (built : Obj) d2,
         validate dto = [] ->
         validateBeforeEdit uuid dto (db w) = (Resolved tt, d1) ->
         buildPartial dto d1 = (Resolved built, d2) ->
         fst run = fst (Repo.save repository (<["uuid" := VStr uuid]> built) d2)
         /\ db (snd run) = snd (Repo.save repository (<["uuid" := VStr uuid]> built) d2)
         /\ issued w (snd run)
            = [EValidateBeforeEdit uuid dto; EBuildPartial dto;
               ESave (<["uuid" := VStr uuid]> built)]).
Proof.
  intros dto run. split.
  - intros model Hin. subst run.
    destruct (edit_issued uuid data w) as [H|[H|[H|[built H]]]];
      rewrite H in Hin; clear H.
    + inversion Hin.
    + apply list_elem_of_singleton in Hin. discriminate.
    + repeat (apply elem_of_cons in Hin as [Hin|Hin]; [discriminate|]).
      inversion Hin.
    + repeat (apply elem_of_cons in Hin as [Hin|Hin]; [try discriminate|]).
      * injection Hin as ->. apply lookup_insert_eq.
      * inversion Hin.
  - intros d1 built d2 Hvalid Hhook Hbuild. subst run.
    rewrite (edit_after_hook uuid data w d1 Hvalid Hhook). fold dto.
    erewrite bind_resolved by (apply call_resolved; exact Hbuild).
    rewrite call_run. simpl. rewrite <- !app_assoc. simpl.
    rewrite issued_app. repeat split.
Qed.

End Pipelines.

(** ** The search filter *)

Section Filtering.

Context {VE DB T_DTO : Type}.
Implicit Types w : World DB T_DTO.
Implicit Types wh : Where.

Local Abbreviation buildOptions := (@buildOptionsToFilter VE DB T_DTO).

Lemma searching_true (o : PaginatedServiceFilters) :
  searching o = true
  <-> exists fs s, searchFields o = Some fs /\ fs <> []
                   /\ search o = Some s /\ s <> "".
Proof.
  unfold searching. rewrite andb_true_iff. split.
  - intros [Hf Hs].
    destruct (searchFields o) as [[|f fs]|]; try discriminate.
    destruct (search o) as [[|c s]|]; try discriminate.
    exists (f :: fs), (String c s). repeat split; discriminate.
  - intros (fs & s & -> & Hfs & -> & Hs).
    destruct fs; [contradiction|]. destruct s; [contradiction|]. now split.
Qed.

Lemma searching_false (o : PaginatedServiceFilters) :
  searching o = false
  <-> searchFields o = None \/ searchFields o = Some []
      \/ search o = None \/ search o = Some "".
Proof.
  unfold searching. rewrite andb_false_iff. split.
  - intros [Hf|Hs].
    + destruct (searchFields o) as [[|f fs]|]; try discriminate; auto.
    + destruct (search o) as [[|c s]|]; try discriminate; auto.
  - intros [Hf|[Hf|[Hs|Hs]]]; [rewrite Hf| rewrite Hf| rewrite Hs| rewrite Hs]; auto.
Qed.

(** The predicate the loop builds, read by key. *)
Lemma lookup_search_fields (c : FindOperator) (fs : list string) wh (k : string) :
  foldl (fun acc f => assignProperty f c acc) wh fs !! k
  = if decide (k ∈ fs /\ k <> "__proto__") then Some c else wh !! k.
Proof.
  revert wh. induction fs as [|f fs IH]; intros wh; cbn [foldl].
  - rewrite decide_False; [reflexivity|]. intros [Hin _]. inversion Hin.
  - rewrite IH. destruct (decide (k ∈ fs /\ k <> "__proto__")) as [[Hin Hk]|Hnot].
    + rewrite decide_True; [reflexivity|]. split; [|exact Hk].
      now apply elem_of_cons; right.
    + unfold assignProperty. destruct (decide (f = "__proto__")) as [Hf|Hf].
      * rewrite decide_False; [reflexivity|].
        intros [[->|Hin]%elem_of_cons Hk]; [congruence|]. now apply Hnot.
      * destruct (decide (k = f)) as [->|Hne].
        -- rewrite lookup_insert_eq, decide_True; [reflexivity|].
           split; [apply elem_of_cons; now left|exact Hf].
        -- rewrite lookup_insert_ne by congruence.
           rewrite decide_False; [reflexivity|].
           intros [[->|Hin]%elem_of_cons Hk]; [congruence|]. now apply Hnot.
Qed.

(** The loop over [searchFields]: it only rewrites [where] of the object at
    [l], one assignment per field, and never fails once [where] is set. *)
Lemma forEach_setSearchField (l : loc) (fs : list string) :
  forall w wh,
    opt_where (heap w l) = Some wh ->
    exists w',
      M.forEach fs (@setSearchField VE DB T_DTO l) w = (Resolved tt, w')
      /\ db w' = db w /\ trace w' = trace w
      /\ (forall l', l' <> l -> heap w' l' = heap w l')
      /\ heap w' l
         = set_where
             (Some (foldl (fun acc f =>
                             assignProperty f (searchClause (search (heap w l))) acc)
                          wh fs))
             (heap w l).
Proof.
  induction fs as [|f fs IH]; intros w wh Hwh; simpl.
  - exists w. repeat split; try reflexivity.
    destruct (heap w l); simpl in *. now subst.
  - set (o := heap w l) in *.
    set (o1 := set_where (Some (assignProperty f (searchClause (search o)) wh)) o).
    set (w1 := mkWorld (<[l := o1]> (heap w)) (db w) (trace w)).
    assert (Hstep : @setSearchField VE DB T_DTO l f w = (Resolved tt, w1)).
    { unfold setSearchField, M.bind, M.deref. fold o. now rewrite Hwh. }
    destruct (IH w1 (assignProperty f (searchClause (search o)) wh))
      as (w' & Hrun & Hdb & Htr & Hframe & Hl).
    { subst w1. simpl. now rewrite fn_lookup_insert. }
    exists w'. rewrite (bind_resolved _ _ _ _ _ Hstep). split; [exact Hrun|].
    split; [now rewrite Hdb|]. split; [now rewrite Htr|]. split.
    + intros l' Hne. rewrite Hframe by exact Hne. subst w1. simpl.
      now rewrite fn_lookup_insert_ne by congruence.
    + rewrite Hl. subst w1. simpl. rewrite fn_lookup_insert. reflexivity.
Qed.

(** The rewriting branch of [buildOptionsToFilter]. *)
Lemma buildOptionsToFilter_rewrites (l : loc) w (fs : list string) (s : string) :
  searchFields (heap w l) = Some fs -> fs <> [] ->
  search (heap w l) = Some s -> s <> "" ->
  exists w',
    buildOptions (Some l) w = (Resolved (Some l), w')
    /\ db w' = db w /\ trace w' = trace w
    /\ (forall l', l' <> l -> heap w' l' = heap w l')
    /\ heap w' l
       = mkFilters
           (Some (foldl (fun acc f => assignProperty f (searchClause (Some s)) acc)
                        ∅ fs))
           None (Some fs) (take (heap w l)) (skip (heap w l)).
Proof.
  intros Hfs Hne Hs Hne'.
  assert (Hcond : searching (heap w l) = true).
  { apply searching_true. now exists fs, s. }
  unfold buildOptionsToFilter, M.bind at 1, M.deref at 1.
  rewrite Hcond.
  set (o := heap w l) in *.
  set (w0 := mkWorld (<[l := set_where (Some ∅) o]> (heap w)) (db w) (trace w)).
  assert (Hassign : @M.assign VE DB T_DTO l (set_where (Some ∅) o) w = (Resolved tt, w0))
    by reflexivity.
  rewrite (bind_resolved _ _ _ _ _ Hassign).
  destruct (forEach_setSearchField l fs w0 ∅)
    as (w1 & Hrun & Hdb & Htr & Hframe & Hl).
  { subst w0. simpl. now rewrite fn_lookup_insert. }
  rewrite Hfs. simpl default. rewrite (bind_resolved _ _ _ _ _ Hrun).
  eexists. split; [reflexivity|]. simpl.
  split; [now rewrite Hdb|]. split; [now rewrite Htr|]. split.
  - intros l' Hl'. rewrite fn_lookup_insert_ne by congruence.
    rewrite Hframe by exact Hl'. subst w0. simpl.
    now rewrite fn_lookup_insert_ne by congruence.
  - rewrite fn_lookup_insert, Hl. subst w0. simpl. rewrite fn_lookup_insert.
    unfold delete_search, set_where. simpl. now rewrite Hs, Hfs.
Qed.

(** The other branch: nothing is touched. *)
Lemma buildOptionsToFilter_unchanged (options : option loc) w :
  (forall l, options = Some l -> searching (heap w l) = false) ->
  buildOptions options w = (Resolved options, w).
Proof.
  intros Hcond. destruct options as [l|]; [|reflexivity].
  specialize (Hcond l eq_refl).
  unfold buildOptionsToFilter, M.bind, M.deref.
  now rewrite Hcond.
Qed.

(** Either way the reference comes back, the persistence layer and the
    trace are not touched, and the pagination bounds stay. *)
Lemma buildOptionsToFilter_keeps_bounds (options : option loc) w :
  exists w',
    buildOptions options w = (Resolved options, w')
    /\ db w' = db w /\ trace w' = trace w
    /\ (forall l, options = Some l ->
          take (heap w' l) = take (heap w l) /\ skip (heap w' l) = skip (heap w l)).
Proof.
  destruct options as [l|]; [destruct (searching (heap w l)) eqn:Hcond|].
  - destruct (proj1 (searching_true _) Hcond) as (fs & s & Hfs & Hne & Hs & Hne').
    destruct (buildOptionsToFilter_rewrites l w fs s Hfs Hne Hs Hne')
      as (w' & Hrun & Hdb & Htr & _ & Hl).
    exists w'. split; [exact Hrun|]. split; [exact Hdb|]. split; [exact Htr|].
    intros l0 [= <-]. rewrite Hl. now split.
  - exists w. split; [|now repeat split].
    apply buildOptionsToFilter_unchanged. now intros l0 [= <-].
  - exists w. split; [reflexivity|]. now repeat split.
Qed.

(** C9, as the code has it. [buildOptionsToFilter] hands back the reference
    it was given and touches neither the persistence layer, nor the trace,
    nor any other object, nor the [searchFields], [take] and [skip] of the
    caller's object.  When [search] or [searchFields] is absent or empty the
    caller's object is left as it was; when both are non-empty the caller's
    object itself is rewritten: its [search] key is deleted and its [where]
    is replaced by the object that has, under every search field but
    [__proto__], the clause [LOWER(column) Like LOWER(:value)] with
    [%search%] as value, and no other key. *)
Theorem buildOptionsToFilter_in_place (options : option loc) w :
  exists w',
    buildOptions options w = (Resolved options, w')
    /\ db w' = db w /\ trace w' = trace w
    /\ (forall l', options <> Some l' -> heap w' l' = heap w l')
    /\ (forall l, options = Some l ->
          searchFields (heap w' l) = searchFields (heap w l)
          /\ take (heap w' l) = take (heap w l)
          /\ skip (heap w' l) = skip (heap w l)
          /\ (searching (heap w l) = false -> heap w' l = heap w l)
          /\ (searching (heap w l) = true ->
                search (heap w' l) = None /\ heap w' l <> heap w l)
          /\ (searching (heap w l) = true ->
                exists (fs : list string) (s : string) wh,
                  searchFields (heap w l) = Some fs
                  /\ search (heap w l) = Some s
                  /\ opt_where (heap w' l) = Some wh
                  /\ forall f,
                       wh !! f
                       = if decide (f ∈ fs /\ f <> "__proto__")
                         then Some (Raw (fun v => "LOWER(" +:+ v +:+ ") Like LOWER(:value)")
                                        {[ "value" := "%" +:+ s +:+ "%" ]})
                         else None)).
Proof.
  destruct options as [l|].
  - destruct (searching (heap w l)) eqn:Hcond.
    + destruct (proj1 (searching_true _) Hcond) as (fs & s & Hfs & Hne & Hs & Hne').
      destruct (buildOptionsToFilter_rewrites l w fs s Hfs Hne Hs Hne')
        as (w' & Hrun & Hdb & Htr & Hframe & Hl).
      exists w'. split; [exact Hrun|]. split; [exact Hdb|]. split; [exact Htr|].
      split.
      * intros l' Hne''. apply Hframe. congruence.
      * intros l0 [= <-]. rewrite Hl. simpl. rewrite Hfs.
        split; [reflexivity|]. split; [reflexivity|]. split; [reflexivity|].
        split; [intros Hno; congruence|]. split.
        -- intros _. split; [reflexivity|].
           intros Heq. apply (f_equal search) in Heq. simpl in Heq. congruence.
        -- intros _. exists fs, s. eexists.
           split; [reflexivity|]. split; [exact Hs|]. split; [reflexivity|].
           intros f. rewrite lookup_search_fields, lookup_empty. reflexivity.
    + exists w. split.
      * apply buildOptionsToFilter_unchanged. now intros l0 [= <-].
      * split; [reflexivity|]. split; [reflexivity|]. split; [reflexivity|].
        intros l0 [= <-]. repeat split; congruence.
  - exists w. repeat split; discriminate.
Qed.

End Filtering.

(** ** The search clause under SQL [LIKE] *)

Section SearchClause.

Import MemRepo.

Lemma append_nil_l (s : string) : "" +:+ s = s.
Proof. reflexivity. Qed.

Lemma append_cons (c : ascii) (s t : string) : String c s +:+ t = String c (s +:+ t).
Proof. reflexivity. Qed.

Lemma like_percent (p t : string) :
  like (String "%" p) t = true
  <-> exists pre suf, t = pre +:+ suf /\ like p suf = true.
Proof.
  induction t as [|c t IH].
  - simpl. rewrite orb_false_r. split.
    + intros H. exists "", "". now split.
    + intros (pre & suf & Heq & H). destruct pre; [|discriminate].
      rewrite append_nil_l in Heq. now subst.
  - change (like (String "%" p) (String c t))
      with (like p (String c t) || like (String "%" p) t).
    rewrite orb_true_iff, IH. split.
    + intros [H|(pre & suf & -> & H)].
      * exists "", (String c t). now split.
      * exists (String c pre), suf. now split.
    + intros (pre & suf & Heq & H). destruct pre as [|d pre].
      * left. rewrite append_nil_l in Heq. now subst.
      * right. rewrite append_cons in Heq. injection Heq as -> ->.
        now exists pre, suf.
Qed.

Lemma like_any (t : string) : like "%" t = true.
Proof.
  apply like_percent. exists t, "". split; [|reflexivity].
  induction t as [|c t IH]; [reflexivity|].
  rewrite append_cons. now f_equal.
Qed.

Lemma like_literal (s q : string) :
  wildcardFree s = true ->
  forall t,
    like (s +:+ q) t = true
    <-> exists rest, t = s +:+ rest /\ like q rest = true.
Proof.
  induction s as [|c s IH]; intros Hfree t.
  - rewrite append_nil_l. split.
    + intros H. now exists t.
    + intros (rest & -> & H). exact H.
  - simpl in Hfree. apply andb_true_iff in Hfree as [Hc Hfree].
    unfold isWildcard in Hc.
    apply negb_true_iff, orb_false_iff in Hc as [Hc _].
    apply orb_false_iff in Hc as [Hp Hu].
    rewrite append_cons. simpl. rewrite Hp, Hu. destruct t as [|d t].
    + split; [discriminate|]. intros (rest & Heq & _).
      rewrite append_cons in Heq. discriminate.
    + simpl. rewrite andb_true_iff, (IH Hfree), Ascii.eqb_eq. split.
      * intros [-> (rest & -> & H)]. exists rest. now rewrite append_cons.
      * intros (rest & Heq & H). rewrite append_cons in Heq. injection Heq as -> ->.
        split; [reflexivity|]. now exists rest.
Qed.

Lemma lower_app (s t : string) : lower (s +:+ t) = lower s +:+ lower t.
Proof.
  induction s as [|c s IH]; [reflexivity|].
  rewrite append_cons. simpl. rewrite append_cons. now f_equal.
Qed.

Lemma isWildcard_lowerAscii (c : ascii) : isWildcard (lowerAscii c) = isWildcard c.
Proof.
  destruct c as [b0 b1 b2 b3 b4 b5 b6 b7].
  destruct b0, b1, b2, b3, b4, b5, b6, b7; vm_compute; reflexivity.
Qed.

Lemma wildcardFree_lower (s : string) : wildcardFree (lower s) = wildcardFree s.
Proof.
  induction s as [|c s IH]; [reflexivity|].
  simpl. now rewrite isWildcard_lowerAscii, IH.
Qed.

(** Under SQL [LIKE], the search clause on a wildcard-free [search] holds of
    a row exactly when the column is a string that contains [search], case
    aside. *)
Lemma searchClause_holds (r : Row) (column s : string) :
  wildcardFree s = true ->
  holds r (column, searchClause (Some s)) = true
  <-> exists text pre post,
        fields r !! column = Some (VStr text)
        /\ lower text = pre +:+ lower s +:+ post.
Proof.
  intros Hfree. unfold holds, searchClause, lowerLikeSql.
  rewrite String.eqb_refl, andb_true_l, lookup_singleton_eq. simpl interpolate.
  assert (Hlike : forall text,
             like (lower ("%" +:+ s +:+ "%")) (lower text) = true
             <-> exists pre post, lower text = pre +:+ lower s +:+ post).
  { intros text. rewrite append_cons, append_nil_l. simpl lower at 1.
    change (lowerAscii "%") with "%"%char.
    rewrite lower_app, like_percent. split.
    - intros (pre & suf & -> & H).
      apply like_literal in H as (rest & -> & _); [|now rewrite wildcardFree_lower].
      now exists pre, rest.
    - intros (pre & post & ->). exists pre, (lower s +:+ post).
      split; [reflexivity|].
      apply like_literal; [now rewrite wildcardFree_lower|].
      exists post. split; [reflexivity|apply like_any]. }
  destruct (fields r !! column) as [[| | | |text]|].
  all: try (split; [discriminate|intros (? & ? & ? & [=] & _)]).
  rewrite Hlike. split.
  - intros (pre & post & H). now exists text, pre, post.
  - intros (text' & pre & post & [= <-] & H). now exists pre, post.
Qed.

End SearchClause.

(** ** The search predicate *)

Section SearchPredicate.

Context {VE DB T_DTO : Type}.
Implicit Types w : World DB T_DTO.
Implicit Types wh : Where.

(** C4, as the code has it. When [search] and [searchFields] are both
    non-empty, the options [buildOptionsToFilter] returns have no [search]
    key and a [where] that holds, under every listed field but [__proto__]
    and under no other key, the clause [LOWER(column) Like LOWER(:value)]
    with [%search%] as value.  Under SQL [LIKE] that clause is the
    case-insensitive containment of [search] when [search] has none of the
    wildcards [%] and [_].  When [search] or [searchFields] is absent or
    empty, the options are returned as they were. *)
Theorem buildOptionsToFilter_search_predicate (options : option loc) w :
  (forall l (fs : list string) (s : string),
      options = Some l ->
      searchFields (heap w l) = Some fs -> fs <> [] ->
      search (heap w l) = Some s -> s <> "" ->
      exists w' wh,
        @buildOptionsToFilter VE DB T_DTO options w = (Resolved (Some l), w')
        /\ opt_where (heap w' l) = Some wh
        /\ (forall f, f ∈ fs -> f <> "__proto__" ->
              wh !! f
              = Some (Raw (fun v => "LOWER(" +:+ v +:+ ") Like LOWER(:value)")
                          {[ "value" := "%" +:+ s +:+ "%" ]}))
        /\ (forall f, f ∉ fs \/ f = "__proto__" -> wh !! f = None)
        /\ (MemRepo.wildcardFree s = true ->
            forall f clause (r : MemRepo.Row),
              wh !! f = Some clause ->
              MemRepo.holds r (f, clause) = true
              <-> exists text pre post,
                    MemRepo.fields r !! f = Some (VStr text)
                    /\ MemRepo.lower text = pre +:+ MemRepo.lower s +:+ post)
        /\ search (heap w' l) = None)
  /\ ((forall l, options = Some l ->
          searchFields (heap w l) = None \/ searchFields (heap w l) = Some []
          \/ search (heap w l) = None \/ search (heap w l) = Some "") ->
      @buildOptionsToFilter VE DB T_DTO options w = (Resolved options, w)).
Proof.
  split.
  - intros l fs s -> Hfs Hne Hs Hne'.
    destruct (buildOptionsToFilter_rewrites (VE:=VE) l w fs s Hfs Hne Hs Hne')
      as (w' & Hrun & _ & _ & _ & Hl).
    exists w'. eexists. split; [exact Hrun|]. rewrite Hl. simpl.
    split; [reflexivity|]. split; [|split; [|split; [|reflexivity]]].
    + intros f Hin Hf. rewrite lookup_search_fields.
      rewrite decide_True by (now split). reflexivity.
    + intros f Hf. rewrite lookup_search_fields, lookup_empty.
      rewrite decide_False; [reflexivity|]. intros [Hin Hne'']. now destruct Hf.
    + intros Hfree f clause r Hclause.
      rewrite lookup_search_fields, lookup_empty in Hclause.
      destruct (decide (f ∈ fs /\ f <> "__proto__")); [|discriminate].
      injection Hclause as <-. now apply searchClause_holds.
  - intros Hcond. apply buildOptionsToFilter_unchanged.
    intros l Hl. apply searching_false. now apply Hcond.
Qed.

End SearchPredicate.

(** ** Queries, save and removal *)

Section Queries.

Context {VE DB T_DTO : Type}.
Variable repository : Repo.t VE DB.
Variable isUUID : string -> bool.
Implicit Types w : World DB T_DTO.

(** The options object behind an optional reference. *)
Local Abbreviation object_at w options := (heap w <$> options).

Lemma snapshot_run (opt : option loc) w :
  @snapshot VE DB T_DTO opt w = (Resolved (object_at w opt), w).
Proof. now destruct opt. Qed.

(** [filter] always gets as far as the query, which it issues once, on the
    rewritten options; its answer is wrapped with the [take] and [skip] the
    caller passed. *)
Lemma filter_run (options : option loc) w :
  exists w1,
    @buildOptionsToFilter VE DB T_DTO options w = (Resolved options, w1)
    /\ filter repository options w
       = (outcome_map
            (fun res => mkResponse (fst res) (snd res)
                                   (object_at w options ≫= take)
                                   (object_at w options ≫= skip))
            (fst (Repo.findAndCount repository (object_at w1 options) (db w))),
          mkWorld (heap w1)
                  (snd (Repo.findAndCount repository (object_at w1 options) (db w)))
                  (trace w ++ [EFindAndCount (object_at w1 options)])).
Proof.
  destruct (buildOptionsToFilter_keeps_bounds (VE:=VE) options w)
    as (w1 & Hrun & Hdb & Htr & Hsame).
  exists w1. split; [exact Hrun|]. unfold filter.
  rewrite (bind_resolved _ _ _ _ _ Hrun).
  rewrite (bind_resolved _ _ _ _ _ (snapshot_run options w1)).
  unfold M.bind at 1. rewrite call_run, Hdb, Htr.
  destruct (Repo.findAndCount repository (object_at w1 options) (db w))
    as [[res|e] d]; simpl; [|reflexivity].
  destruct options as [l|]; simpl; [|reflexivity].
  destruct (Hsame l eq_refl) as (Htake & Hskip).
  unfold M.bind, M.deref, M.ret. simpl. now rewrite Htake, Hskip.
Qed.

(** C8. The response of [filter] carries as [limit] and [offset] the [take]
    and [skip] of the options it was called with, and as [data] and [total]
    the answer of the one [findAndCount] issued on the rewritten options. *)
Theorem filter_echoes_pagination (options : option loc) w (res : PaginatedResponse) w' :
  filter repository options w = (Resolved res, w') ->
  limit res = object_at w options ≫= take
  /\ offset res = object_at w options ≫= skip
  /\ exists w1,
       @buildOptionsToFilter VE DB T_DTO options w = (Resolved options, w1)
       /\ issued w w' = [EFindAndCount (object_at w1 options)]
       /\ Repo.findAndCount repository (object_at w1 options) (db w)
          = (Resolved (data res, total res), db w').
Proof.
  intros Hrun. destruct (filter_run options w) as (w1 & Hbuild & Heq).
  rewrite Heq in Hrun. clear Heq.
  destruct (Repo.findAndCount repository (object_at w1 options) (db w))
    as [[[rows n]|e] d] eqn:Hquery; simpl in Hrun; [|discriminate].
  injection Hrun as <- <-. simpl. split; [reflexivity|]. split; [reflexivity|].
  exists w1. split; [exact Hbuild|]. split; [apply issued_app|exact Hquery].
Qed.


(** C6 (the code). [save] issues the persistence layer's [save], but what
    it hands back is [undefined], whatever the layer answered: the [[0]]
    is read off the promise. *)
Theorem save_returns_undefined (model : Obj) w :
  fst (save repository model w) = Undefined
  /\ issued w (snd (save repository model w)) = [ESave model]
  /\ db (snd (save repository model w)) = snd (Repo.save repository model (db w)).
Proof.
  unfold save. rewrite call_run. simpl.
  split; [reflexivity|]. split; [apply issued_app|reflexivity].
Qed.

(** [remove] is the one call [softDelete uuid], and its answer rewrapped. *)
Lemma remove_run (uuid : string) w :
  remove repository uuid w
  = (outcome_map (fun r => mkRemoveResult (affected r))
                 (fst (Repo.softDelete repository uuid (db w))),
     mkWorld (heap w) (snd (Repo.softDelete repository uuid (db w)))
             (trace w ++ [ESoftDelete uuid])).
Proof.
  unfold remove, M.bind. rewrite call_run.
  now destruct (fst (Repo.softDelete repository uuid (db w))).
Qed.

(** C7, as the code has it. [remove uuid] issues one call, the persistence
    layer's [softDelete uuid], and leaves the layer in the state that call
    left; it returns the count the layer reported, rewrapped as
    [{ affected }], and rejects with the layer's error when the call
    rejects.  Over a layer that keeps the soft-delete contract, a call that
    resolves has reported 1 for a stored record and 0 otherwise, the record
    is then marked deleted, and no stored record has disappeared. *)
Theorem remove_soft_deletes (stored deleted : DB -> string -> bool)
    (uuid : string) w :
  remove repository uuid w
  = (outcome_map (fun r => mkRemoveResult (affected r))
                 (fst (Repo.softDelete repository uuid (db w))),
     mkWorld (heap w) (snd (Repo.softDelete repository uuid (db w)))
             (trace w ++ [ESoftDelete uuid]))
  /\ issued w (snd (remove repository uuid w)) = [ESoftDelete uuid]
  /\ (forall e,
         fst (Repo.softDelete repository uuid (db w)) = Rejected e ->
         fst (remove repository uuid w) = Rejected e)
  /\ (SoftDeleteContract repository stored deleted ->
      forall r,
        fst (Repo.softDelete repository uuid (db w)) = Resolved r ->
        fst (remove repository uuid w)
        = Resolved (mkRemoveResult (Some (if stored (db w) uuid then 1 else 0)))
        /\ (stored (db w) uuid = true ->
            deleted (db (snd (remove repository uuid w))) uuid = true)
        /\ (forall u,
               stored (db (snd (remove repository uuid w))) u = stored (db w) u)).
Proof.
  rewrite remove_run. simpl. split; [reflexivity|].
  split; [apply issued_app|]. split.
  - intros e ->. reflexivity.
  - intros [Hcount Hkeeps Hmarks] r Hres.
    destruct (Repo.softDelete repository uuid (db w)) as [o d'] eqn:Hcall.
    simpl in Hres. subst o. simpl.
    split; [now rewrite (Hcount uuid (db w) r d' Hcall)|].
    split; [exact (Hmarks uuid (db w) r d' Hcall)|].
    exact (Hkeeps uuid (db w) r d' Hcall).
Qed.

(** C10. Where [get] stops at a string that is not a UUID, [remove] does
    not look at its argument: it issues [softDelete] on it and returns, or
    fails with, what the persistence layer answers. *)
Theorem remove_skips_uuid_check (uuid : string) w :
  isUUID uuid = false ->
  issued w (snd (get repository isUUID uuid w)) = []
  /\ issued w (snd (remove repository uuid w)) = [ESoftDelete uuid]
  /\ fst (remove repository uuid w)
     = outcome_map (fun r => mkRemoveResult (affected r))
                   (fst (Repo.softDelete repository uuid (db w)))
  /\ db (snd (remove repository uuid w))
     = snd (Repo.softDelete repository uuid (db w)).
Proof.
  intros Hbad. split.
  - unfold get. rewrite Hbad. apply issued_refl.
  - rewrite remove_run. simpl. split; [apply issued_app|]. now split.
Qed.

End Queries.

(** ** The statements on the book service *)

Section Books.

Import Sample.

Local Abbreviation World0 := (World MemRepo.Table Obj).

(** The in-memory table keeps the soft-delete contract. *)
Lemma memrepo_soft_delete_contract {VE : Type} :
  SoftDeleteContract (@MemRepo.repository VE) MemRepo.stored MemRepo.deleted.
Proof.
  split.
  - intros uuid d r d' [= <- _]. reflexivity.
  - intros uuid d r d' [= _ <-] u. unfold MemRepo.stored. simpl.
    apply bool_decide_ext. rewrite lookup_alter.
    destruct (decide (uuid = u)) as [->|_]; [apply fmap_is_Some|reflexivity].
  - intros uuid d r d' [= _ <-] Hstored. unfold MemRepo.deleted. simpl.
    rewrite lookup_alter_eq.
    apply bool_decide_eq_true in Hstored as [row ->]. reflexivity.
Qed.

Lemma invalid_dto_rejected_before_persistence_witness :
  validate (plainToInstance untitled) <> []
  /\ createBook untitled start
     = (Rejected (validationError ["title should not be empty"]), start)
  /\ editBook uuidA untitled start
     = (Rejected (validationError ["title should not be empty"]), start).
Proof.
  split; [vm_compute; discriminate|].
  apply (invalid_dto_rejected_before_persistence
           repository plainToInstance validate buildPartial
           (fun _ => noHook) (fun _ _ => noHook) uuidA untitled start).
  vm_compute; discriminate.
Defined.

Lemma create_valid_pipeline_witness :
  (exists w' : World0,
      createBook dune start = (fst (Repo.save repository dune table), w')
      /\ heap w' = heap start
      /\ db w' = snd (Repo.save repository dune table)
      /\ issued start w' = [EValidateBeforeCreate dune; EBuildPartial dune; ESave dune]
      /\ count is_buildPartial (issued start w') = 1
      /\ count is_save (issued start w') = 1)
  /\ (exists w' : World0,
         createBookRejecting dune start = (Rejected (OtherError "NotFound"), w')
         /\ heap w' = heap start
         /\ db w' = table
         /\ issued start w' = [EValidateBeforeCreate dune; EBuildPartial dune]
         /\ count is_buildPartial (issued start w') = 1
         /\ count is_save (issued start w') = 0).
Proof.
  split.
  - apply (proj1 (create_valid_pipeline
                    repository plainToInstance validate buildPartial
                    (fun _ => noHook) dune start table eq_refl eq_refl)
                 dune table eq_refl).
  - apply (proj2 (create_valid_pipeline
                    repository plainToInstance validate buildPartialRejects
                    (fun _ => noHook) dune start table eq_refl eq_refl)
                 (OtherError "NotFound") table eq_refl).
Defined.

(** A valid DTO and a hook that passes, yet no [save]: the builder rejected. *)
Lemma create_builder_rejects_no_save :
  ~ (validate (plainToInstance dune) = [] ->
     noHook (db start) = (Resolved (VE:=string) tt, db start) ->
     count is_save (issued start (snd (createBookRejecting dune start))) = 1).
Proof.
  intros Hclaim. specialize (Hclaim eq_refl eq_refl).
  vm_compute in Hclaim. discriminate.
Qed.

Lemma edit_forces_identity_witness :
  duneAsB !! "uuid" = Some (VStr uuidB)
  /\ issued start (snd (editBook uuidA duneAsB start))
     = [EValidateBeforeEdit uuidA duneAsB; EBuildPartial duneAsB;
        ESave (<["uuid" := VStr uuidA]> duneAsB)]
  /\ forall model : Obj,
       ESave model ∈ issued start (snd (editBook uuidA duneAsB start)) ->
       model !! "uuid" = Some (VStr uuidA).
Proof.
  destruct (edit_forces_identity
              repository plainToInstance validate buildPartial
              (fun _ _ => noHook) uuidA duneAsB start) as [Hany Hrun].
  destruct (Hrun table duneAsB table eq_refl eq_refl eq_refl) as (_ & _ & Hissued).
  split; [reflexivity|]. split; [exact Hissued|exact Hany].
Defined.

Lemma buildOptionsToFilter_search_predicate_witness :
  (exists (w' : World0) (wh : Where),
      buildOptionsToFilter (VE:=string) (Some 0)
                           (world (options (Some "ann") (Some ["title"])))
      = (Resolved (Some 0), w')
      /\ opt_where (heap w' 0) = Some wh
      /\ wh !! "title"
         = Some (Raw (fun v => "LOWER(" +:+ v +:+ ") Like LOWER(:value)")
                     {[ "value" := "%ann%" ]})
      /\ wh !! "year" = None
      /\ (forall clause, wh !! "title" = Some clause ->
          MemRepo.holds annals ("title", clause) = true)
      /\ search (heap w' 0) = None)
  /\ buildOptionsToFilter (VE:=string) (Some 0)
                          (world (options (Some "ann") (Some [])))
     = (Resolved (Some 0), world (options (Some "ann") (Some []))).
Proof.
  split.
  - destruct (proj1 (buildOptionsToFilter_search_predicate
                       (VE:=string) (Some 0)
                       (world (options (Some "ann") (Some ["title"]))))
                    0 ["title"] "ann" eq_refl eq_refl
                    ltac:(discriminate) eq_refl ltac:(discriminate))
      as (w' & wh & Hrun & Hwh & Hin & Hout & Hlike & Hsearch).
    exists w', wh. split; [exact Hrun|]. split; [exact Hwh|].
    split; [apply Hin; [apply list_elem_of_singleton; reflexivity|discriminate]|].
    split; [apply Hout; left; rewrite list_elem_of_singleton; discriminate|].
    split; [|exact Hsearch].
    intros clause Hclause. apply (Hlike eq_refl "title" clause annals Hclause).
    exists "Annals", "", "als". split; reflexivity.
  - apply (proj2 (buildOptionsToFilter_search_predicate
                    (VE:=string) (Some 0)
                    (world (options (Some "ann") (Some []))))).
    intros l _. right. left. reflexivity.
Defined.

(** Two searches the clause does not read as containment.  The text [a_n]
    does not occur in [Annals], yet the clause built for it holds of that
    row: [_] stands for any character.  And the field [__proto__] comes out
    as no key of [where]. *)
Lemma search_clause_is_not_containment :
  (exists (w' : World0) (wh : Where) (clause : FindOperator),
      buildOptionsToFilter (VE:=string) (Some 0)
                           (world (options (Some "a_n") (Some ["title"])))
      = (Resolved (Some 0), w')
      /\ opt_where (heap w' 0) = Some wh
      /\ wh !! "title" = Some clause
      /\ MemRepo.holds annals ("title", clause) = true
      /\ MemRepo.fields annals !! "title" = Some (VStr "Annals")
      /\ ~ exists pre post,
             MemRepo.lower "Annals" = pre +:+ MemRepo.lower "a_n" +:+ post)
  /\ (exists (w' : World0) (wh : Where),
         buildOptionsToFilter (VE:=string) (Some 0)
                              (world (options (Some "ann") (Some ["__proto__"])))
         = (Resolved (Some 0), w')
         /\ opt_where (heap w' 0) = Some wh
         /\ wh !! "__proto__" = None).
Proof.
  split.
  - eexists (snd (buildOptionsToFilter (VE:=string) (Some 0)
                    (world (options (Some "a_n") (Some ["title"]))))), _, _.
    split; [vm_compute; reflexivity|]. split; [vm_compute; reflexivity|].
    split; [vm_compute; reflexivity|]. split; [vm_compute; reflexivity|].
    split; [vm_compute; reflexivity|].
    intros (pre & post & Heq). vm_compute in Heq.
    repeat (destruct pre as [|? pre];
            [discriminate|injection Heq as _ Heq]).
    destruct pre; discriminate.
  - eexists (snd (buildOptionsToFilter (VE:=string) (Some 0)
                    (world (options (Some "ann") (Some ["__proto__"]))))), _.
    split; [vm_compute; reflexivity|]. split; [vm_compute; reflexivity|].
    vm_compute; reflexivity.
Qed.

(** The caller's object before and after a search: it is not the same. *)
Lemma buildOptionsToFilter_mutates_caller_object :
  heap (snd (buildOptionsToFilter (VE:=string) (Some 0)
                                  (world (options (Some "ann") (Some ["title"])))))
       0
  <> heap (world (options (Some "ann") (Some ["title"]))) 0.
Proof.
  intros Hsame. apply (f_equal search) in Hsame.
  vm_compute in Hsame. discriminate.
Qed.

Lemma buildOptionsToFilter_in_place_witness :
  exists w' : World0,
    buildOptionsToFilter (VE:=string) (Some 0)
                         (world (options (Some "ann") (Some ["title"])))
    = (Resolved (Some 0), w')
    /\ search (heap w' 0) = None
    /\ searchFields (heap w' 0) = Some ["title"]
    /\ take (heap w' 0) = Some 10
    /\ skip (heap w' 0) = Some 0
    /\ exists wh : Where,
         opt_where (heap w' 0) = Some wh
         /\ wh !! "title"
            = Some (Raw (fun v => "LOWER(" +:+ v +:+ ") Like LOWER(:value)")
                        {[ "value" := "%ann%" ]})
         /\ wh !! "year" = None.
Proof.
  destruct (buildOptionsToFilter_in_place
              (VE:=string) (Some 0)
              (world (options (Some "ann") (Some ["title"]))))
    as (w' & Hrun & _ & _ & _ & Hobj).
  destruct (Hobj 0 eq_refl) as (Hfields & Htake & Hskip & _ & Hsearch & Hwhere).
  exists w'. split; [exact Hrun|].
  split; [apply Hsearch; reflexivity|].
  split; [exact Hfields|]. split; [exact Htake|]. split; [exact Hskip|].
  destruct (Hwhere eq_refl) as (fs & s & wh & [= <-] & [= <-] & Hwh & Hkeys).
  exists wh. split; [exact Hwh|]. rewrite !Hkeys. split.
  - rewrite decide_True; [reflexivity|].
    split; [apply list_elem_of_singleton; reflexivity|discriminate].
  - rewrite decide_False; [reflexivity|].
    intros [Hin _]. apply list_elem_of_singleton in Hin. discriminate.
Defined.

Lemma filter_echoes_pagination_witness :
  let w := world (mkFilters None (Some "ann") (Some ["title"]) (Some 10) (Some 0)) in
  let res := mkResponse [book uuidA "Annals"] 1 (Some 10) (Some 0) in
  filter repository (Some 0) w = (Resolved res, snd (filter repository (Some 0) w))
  /\ limit res = Some 10 /\ offset res = Some 0.
Proof.
  intros w res.
  assert (Hrun : filter repository (Some 0) w
                 = (Resolved res, snd (filter repository (Some 0) w)))
    by (vm_compute; reflexivity).
  split; [exact Hrun|].
  destruct (filter_echoes_pagination repository (Some 0) w res _ Hrun)
    as (Hlimit & Hoffset & _).
  split; [exact Hlimit|exact Hoffset].
Defined.


(** [save] on the book service: the book is stored, [undefined] comes back. *)
Example save_book_returns_undefined :
  fst (save repository (book uuidB "Solaris") start) = Undefined
  /\ fst (Repo.save repository (book uuidB "Solaris") table)
     = Resolved (book uuidB "Solaris")
  /\ MemRepo.stored (db (snd (save repository (book uuidB "Solaris") start))) uuidB
     = true.
Proof. vm_compute. repeat split. Qed.

Lemma remove_soft_deletes_witness :
  (MemRepo.stored table uuidA = true
   /\ fst (remove repository uuidA start) = Resolved (mkRemoveResult (Some 1))
   /\ MemRepo.deleted table uuidA = false
   /\ MemRepo.deleted (db (snd (remove repository uuidA start))) uuidA = true
   /\ MemRepo.stored (db (snd (remove repository uuidA start))) uuidA = true)
  /\ (MemRepo.stored table uuidB = false
      /\ fst (remove repository uuidB start) = Resolved (mkRemoveResult (Some 0)))
  /\ fst (remove typedRepository "not-a-uuid" start)
     = Rejected (OtherError "QueryFailedError").
Proof.
  split; [|split].
  - destruct (remove_soft_deletes repository MemRepo.stored MemRepo.deleted
                uuidA start) as (_ & _ & _ & Hlayer).
    destruct (Hlayer memrepo_soft_delete_contract _ eq_refl)
      as (Hone & Hmarked & Hkeeps).
    split; [reflexivity|]. split; [exact Hone|]. split; [reflexivity|].
    split; [apply Hmarked; reflexivity|]. rewrite Hkeeps. reflexivity.
  - destruct (remove_soft_deletes repository MemRepo.stored MemRepo.deleted
                uuidB start) as (_ & _ & _ & Hlayer).
    destruct (Hlayer memrepo_soft_delete_contract _ eq_refl) as (Hzero & _).
    split; [reflexivity|exact Hzero].
  - destruct (remove_soft_deletes typedRepository MemRepo.stored MemRepo.deleted
                "not-a-uuid" start) as (_ & _ & Hrejects & _).
    apply Hrejects. reflexivity.
Defined.

(** Over a [uuid]-typed column, [remove] of a string that is no UUID, a
    record that does not exist, answers no [{ affected: 0 }]: it rejects. *)
Lemma remove_rejects_on_typed_column :
  (MemRepo.stored table "" = false
   /\ ~ exists n,
          fst (remove typedRepository "" start) = Resolved (mkRemoveResult n))
  /\ (MemRepo.stored table "not-a-uuid" = false
      /\ ~ exists n,
             fst (remove typedRepository "not-a-uuid" start)
             = Resolved (mkRemoveResult n)).
Proof.
  split; (split; [reflexivity|]); intros [n Hn]; vm_compute in Hn; discriminate.
Qed.

(** After [remove], a [get] of the same identifier finds nothing, though
    the row is still stored. *)
Example get_after_remove_is_absent :
  fst (get repository isUUID uuidA start) = Resolved (Some (book uuidA "Annals"))
  /\ fst (get repository isUUID uuidA (snd (remove repository uuidA start)))
     = Resolved None.
Proof. vm_compute. split; reflexivity. Qed.

Lemma remove_skips_uuid_check_witness :
  isUUID "not-a-uuid" = false
  /\ issued start (snd (get repository isUUID "not-a-uuid" start)) = []
  /\ issued start (snd (remove repository "not-a-uuid" start))
     = [ESoftDelete "not-a-uuid"].
Proof.
  destruct (remove_skips_uuid_check repository isUUID "not-a-uuid" start eq_refl)
    as (Hget & Hremove & _).
  split; [reflexivity|]. split; [exact Hget|exact Hremove].
Defined.

End Books.

(** ** Failures and what is saved *)

Section PipelineFailures.

Context {VE DB T_DTO : Type}.
Variable repository : Repo.t VE DB.
Variable plainToInstance : T_DTO -> T_DTO.
Variable validate : T_DTO -> list VE.
Variable buildPartial : T_DTO -> Async VE DB Obj.
Variable validateBeforeCreate : T_DTO -> Async VE DB unit.
Variable validateBeforeEdit : string -> T_DTO -> Async VE DB unit.
Implicit Types w : World DB T_DTO.

Local Abbreviation creating :=
  (create repository plainToInstance validate buildPartial validateBeforeCreate).
Local Abbreviation editing :=
  (edit repository plainToInstance validate buildPartial validateBeforeEdit).

Lemma create_hook_rejected (data : T_DTO) w e d1 :
  validate (plainToInstance data) = [] ->
  validateBeforeCreate (plainToInstance data) (db w) = (Rejected e, d1) ->
  creating data w
  = (Rejected e,
     mkWorld (heap w) d1 (trace w ++ [EValidateBeforeCreate (plainToInstance data)])).
Proof.
  intros Hvalid Hhook. unfold create.
  rewrite (bind_resolved _ _ _ _ _
             (validateDto_valid plainToInstance validate data w Hvalid)).
  now erewrite bind_rejected by (apply call_rejected; exact Hhook).
Qed.

Lemma create_resolved_builder (data : T_DTO) w d1 (model : Obj) d2 :
  validate (plainToInstance data) = [] ->
  validateBeforeCreate (plainToInstance data) (db w) = (Resolved tt, d1) ->
  buildPartial (plainToInstance data) d1 = (Resolved model, d2) ->
  creating data w
  = (fst (Repo.save repository model d2),
     mkWorld (heap w) (snd (Repo.save repository model d2))
             (trace w ++ [EValidateBeforeCreate (plainToInstance data);
                          EBuildPartial (plainToInstance data);
                          ESave model])).
Proof.
  intros Hvalid Hhook Hbuild.
  rewrite (create_after_hook _ _ _ _ _ data w d1 Hvalid Hhook).
  erewrite bind_resolved by (apply call_resolved; exact Hbuild).
  rewrite call_run. simpl. now rewrite <- !app_assoc.
Qed.

Lemma edit_hook_rejected (uuid : string) (data : T_DTO) w e d1 :
  validate (plainToInstance data) = [] ->
  validateBeforeEdit uuid (plainToInstance data) (db w) = (Rejected e, d1) ->
  editing uuid data w
  = (Rejected e,
     mkWorld (heap w) d1
             (trace w ++ [EValidateBeforeEdit uuid (plainToInstance data)])).
Proof.
  intros Hvalid Hhook. unfold edit.
  rewrite (bind_resolved _ _ _ _ _
             (validateDto_valid plainToInstance validate data w Hvalid)).
  now erewrite bind_rejected by (apply call_rejected; exact Hhook).
Qed.

Lemma edit_builder_rejected (uuid : string) (data : T_DTO) w d1 e d2 :
  validate (plainToInstance data) = [] ->
  validateBeforeEdit uuid (plainToInstance data) (db w) = (Resolved tt, d1) ->
  buildPartial (plainToInstance data) d1 = (Rejected e, d2) ->
  editing uuid data w
  = (Rejected e,
     mkWorld (heap w) d2
             (trace w ++ [EValidateBeforeEdit uuid (plainToInstance data);
                          EBuildPartial (plainToInstance data)])).
Proof.
  intros Hvalid Hhook Hbuild.
  rewrite (edit_after_hook _ _ _ _ _ uuid data w d1 Hvalid Hhook).
  erewrite bind_rejected by (apply call_rejected; exact Hbuild).
  simpl. now rewrite <- app_assoc.
Qed.

Lemma edit_resolved_builder (uuid : string) (data : T_DTO) w d1 (built : Obj) d2 :
  validate (plainToInstance data) = [] ->
  validateBeforeEdit uuid (plainToInstance data) (db w) = (Resolved tt, d1) ->
  buildPartial (plainToInstance data) d1 = (Resolved built, d2) ->
  editing uuid data w
  = (fst (Repo.save repository (<["uuid" := VStr uuid]> built) d2),
     mkWorld (heap w) (snd (Repo.save repository (<["uuid" := VStr uuid]> built) d2))
             (trace w ++ [EValidateBeforeEdit uuid (plainToInstance data);
                          EBuildPartial (plainToInstance data);
                          ESave (<["uuid" := VStr uuid]> built)])).
Proof.
  intros Hvalid Hhook Hbuild.
  rewrite (edit_after_hook _ _ _ _ _ uuid data w d1 Hvalid Hhook).
  erewrite bind_resolved by (apply call_resolved; exact Hbuild).
  rewrite call_run. simpl. now rewrite <- !app_assoc.
Qed.

(** Every way [create] can run. *)
Lemma create_cases (data : T_DTO) w :
  let dto := plainToInstance data in
  (validate dto <> []
   /\ creating data w = (Rejected (validationError (validate dto)), w))
  \/ (validate dto = []
      /\ exists e d1,
           validateBeforeCreate dto (db w) = (Rejected e, d1)
           /\ creating data w
              = (Rejected e,
                 mkWorld (heap w) d1 (trace w ++ [EValidateBeforeCreate dto])))
  \/ (validate dto = []
      /\ exists d1 e d2,
           validateBeforeCreate dto (db w) = (Resolved tt, d1)
           /\ buildPartial dto d1 = (Rejected e, d2)
           /\ creating data w
              = (Rejected e,
                 mkWorld (heap w) d2
                         (trace w ++ [EValidateBeforeCreate dto; EBuildPartial dto])))
  \/ (validate dto = []
      /\ exists d1 model d2,
           validateBeforeCreate dto (db w) = (Resolved tt, d1)
           /\ buildPartial dto d1 = (Resolved model, d2)
           /\ creating data w
              = (fst (Repo.save repository model d2),
                 mkWorld (heap w) (snd (Repo.save repository model d2))
                         (trace w ++ [EValidateBeforeCreate dto; EBuildPartial dto;
                                      ESave model]))).
Proof.
  intros dto.
  destruct (validate dto) as [|v errs] eqn:Hvalid.
  - right.
    destruct (validateBeforeCreate dto (db w)) as [[[]|e] d1] eqn:Hhook.
    + right.
      destruct (buildPartial dto d1) as [[model|e] d2] eqn:Hbuild.
      * right. split; [reflexivity|]. exists d1, model, d2.
        split; [first [reflexivity|assumption]|].
        split; [first [reflexivity|assumption]|].
        now apply (create_resolved_builder data w d1 model d2).
      * left. split; [reflexivity|]. exists d1, e, d2.
        split; [first [reflexivity|assumption]|].
        split; [first [reflexivity|assumption]|].
        now apply (create_builder_rejected repository plainToInstance validate
                     buildPartial validateBeforeCreate data w d1 e d2).
    + left. split; [reflexivity|]. exists e, d1.
      split; [first [reflexivity|assumption]|].
      now apply (create_hook_rejected data w e d1).
  - left. split; [discriminate|]. rewrite <- Hvalid. unfold create.
    eapply bind_rejected, validateDto_invalid. fold dto.
    rewrite Hvalid. discriminate.
Qed.

(** Every way [edit] can run. *)
Lemma edit_cases (uuid : string) (data : T_DTO) w :
  let dto := plainToInstance data in
  (validate dto <> []
   /\ editing uuid data w = (Rejected (validationError (validate dto)), w))
  \/ (validate dto = []
      /\ exists e d1,
           validateBeforeEdit uuid dto (db w) = (Rejected e, d1)
           /\ editing uuid data w
              = (Rejected e,
                 mkWorld (heap w) d1 (trace w ++ [EValidateBeforeEdit uuid dto])))
  \/ (validate dto = []
      /\ exists d1 e d2,
           validateBeforeEdit uuid dto (db w) = (Resolved tt, d1)
           /\ buildPartial dto d1 = (Rejected e, d2)
           /\ editing uuid data w
              = (Rejected e,
                 mkWorld (heap w) d2
                         (trace w ++ [EValidateBeforeEdit uuid dto; EBuildPartial dto])))
  \/ (validate dto = []
      /\ exists d1 built d2,
           validateBeforeEdit uuid dto (db w) = (Resolved tt, d1)
           /\ buildPartial dto d1 = (Resolved built, d2)
           /\ editing uuid data w
              = (fst (Repo.save repository (<["uuid" := VStr uuid]> built) d2),
                 mkWorld (heap w)
                         (snd (Repo.save repository (<["uuid" := VStr uuid]> built) d2))
                         (trace w ++ [EValidateBeforeEdit uuid dto; EBuildPartial dto;
                                      ESave (<["uuid" := VStr uuid]> built)]))).
Proof.
  intros dto.
  destruct (validate dto) as [|v errs] eqn:Hvalid.
  - right.
    destruct (validateBeforeEdit uuid dto (db w)) as [[[]|e] d1] eqn:Hhook.
    + right.
      destruct (buildPartial dto d1) as [[built|e] d2] eqn:Hbuild.
      * right. split; [reflexivity|]. exists d1, built, d2.
        split; [first [reflexivity|assumption]|].
        split; [first [reflexivity|assumption]|].
        now apply (edit_resolved_builder uuid data w d1 built d2).
      * left. split; [reflexivity|]. exists d1, e, d2.
        split; [first [reflexivity|assumption]|].
        split; [first [reflexivity|assumption]|].
        now apply (edit_builder_rejected uuid data w d1 e d2).
    + left. split; [reflexivity|]. exists e, d1.
      split; [first [reflexivity|assumption]|].
      now apply (edit_hook_rejected uuid data w e d1).
  - left. split; [discriminate|]. rewrite <- Hvalid. unfold edit.
    eapply bind_rejected, validateDto_invalid. fold dto.
    rewrite Hvalid. discriminate.
Qed.

(** X1. On a valid DTO, a rejection of the create hook is the result of
    [create], and only the hook was called; a rejection of [buildPartial]
    after a passing hook is the result of [create], and [save] was not
    called.  Either way the rejection is handed on as it is. *)
Theorem create_rejections_propagate (data : T_DTO) w :
  validate (plainToInstance data) = [] ->
  (forall e d1,
      validateBeforeCreate (plainToInstance data) (db w) = (Rejected e, d1) ->
      fst (creating data w) = Rejected e
      /\ db (snd (creating data w)) = d1
      /\ issued w (snd (creating data w))
         = [EValidateBeforeCreate (plainToInstance data)])
  /\ (forall d1 e d2,
         validateBeforeCreate (plainToInstance data) (db w) = (Resolved tt, d1) ->
         buildPartial (plainToInstance data) d1 = (Rejected e, d2) ->
         fst (creating data w) = Rejected e
         /\ db (snd (creating data w)) = d2
         /\ issued w (snd (creating data w))
            = [EValidateBeforeCreate (plainToInstance data);
               EBuildPartial (plainToInstance data)]).
Proof.
  intros Hvalid. split.
  - intros e d1 Hhook. rewrite (create_hook_rejected data w e d1 Hvalid Hhook).
    simpl. split; [reflexivity|]. split; [reflexivity|apply issued_app].
  - intros d1 e d2 Hhook Hbuild.
    rewrite (create_builder_rejected repository plainToInstance validate
               buildPartial validateBeforeCreate data w d1 e d2 Hvalid Hhook Hbuild).
    simpl. split; [reflexivity|]. split; [reflexivity|apply issued_app].
Qed.

(** X2. The same for [edit]: a rejection of the edit hook, or of
    [buildPartial] after it, is the result of [edit], and [save] was not
    called. *)
Theorem edit_rejections_propagate (uuid : string) (data : T_DTO) w :
  validate (plainToInstance data) = [] ->
  (forall e d1,
      validateBeforeEdit uuid (plainToInstance data) (db w) = (Rejected e, d1) ->
      fst (editing uuid data w) = Rejected e
      /\ db (snd (editing uuid data w)) = d1
      /\ issued w (snd (editing uuid data w))
         = [EValidateBeforeEdit uuid (plainToInstance data)])
  /\ (forall d1 e d2,
         validateBeforeEdit uuid (plainToInstance data) (db w) = (Resolved tt, d1) ->
         buildPartial (plainToInstance data) d1 = (Rejected e, d2) ->
         fst (editing uuid data w) = Rejected e
         /\ db (snd (editing uuid data w)) = d2
         /\ issued w (snd (editing uuid data w))
            = [EValidateBeforeEdit uuid (plainToInstance data);
               EBuildPartial (plainToInstance data)]).
Proof.
  intros Hvalid. split.
  - intros e d1 Hhook. rewrite (edit_hook_rejected uuid data w e d1 Hvalid Hhook).
    simpl. split; [reflexivity|]. split; [reflexivity|apply issued_app].
  - intros d1 e d2 Hhook Hbuild.
    rewrite (edit_builder_rejected uuid data w d1 e d2 Hvalid Hhook Hbuild).
    simpl. split; [reflexivity|]. split; [reflexivity|apply issued_app].
Qed.

Local Ltac not_saved Hin :=
  repeat (apply elem_of_cons in Hin as [Hin|Hin]; [discriminate|]);
  inversion Hin.

(** X3. Whatever [create] hands to [save] is what [buildPartial] resolved
    to, for a DTO that passed validation and whose hook passed: nothing is
    saved otherwise. *)
Theorem create_saves_only_validated (data : T_DTO) w (model : Obj) :
  ESave model ∈ issued w (snd (creating data w)) ->
  validate (plainToInstance data) = []
  /\ exists d1 d2,
       validateBeforeCreate (plainToInstance data) (db w) = (Resolved tt, d1)
       /\ buildPartial (plainToInstance data) d1 = (Resolved model, d2).
Proof.
  intros Hin.
  destruct (create_cases data w)
    as [[_ Hrun]|[[_ (e & d1 & _ & Hrun)]|[[_ (d1 & e & d2 & _ & _ & Hrun)]
       |[Hvalid (d1 & built & d2 & Hhook & Hbuild & Hrun)]]]];
    rewrite Hrun in Hin; simpl in Hin.
  - rewrite issued_refl in Hin. inversion Hin.
  - rewrite issued_app in Hin. not_saved Hin.
  - rewrite issued_app in Hin. not_saved Hin.
  - rewrite issued_app in Hin.
    repeat (apply elem_of_cons in Hin as [Hin|Hin]; [try discriminate|]);
      [|inversion Hin].
    injection Hin as ->. split; [exact Hvalid|]. now exists d1, d2.
Qed.

(** X4. Whatever [edit] hands to [save] is what [buildPartial] resolved to
    with [uuid] overwritten, for a DTO that passed validation and whose hook
    passed: nothing is saved otherwise. *)
Theorem edit_saves_only_validated (uuid : string) (data : T_DTO) w (model : Obj) :
  ESave model ∈ issued w (snd (editing uuid data w)) ->
  validate (plainToInstance data) = []
  /\ exists d1 built d2,
       validateBeforeEdit uuid (plainToInstance data) (db w) = (Resolved tt, d1)
       /\ buildPartial (plainToInstance data) d1 = (Resolved built, d2)
       /\ model = <["uuid" := VStr uuid]> built.
Proof.
  intros Hin.
  destruct (edit_cases uuid data w)
    as [[_ Hrun]|[[_ (e & d1 & _ & Hrun)]|[[_ (d1 & e & d2 & _ & _ & Hrun)]
       |[Hvalid (d1 & built & d2 & Hhook & Hbuild & Hrun)]]]];
    rewrite Hrun in Hin; simpl in Hin.
  - rewrite issued_refl in Hin. inversion Hin.
  - rewrite issued_app in Hin. not_saved Hin.
  - rewrite issued_app in Hin. not_saved Hin.
  - rewrite issued_app in Hin.
    repeat (apply elem_of_cons in Hin as [Hin|Hin]; [try discriminate|]);
      [|inversion Hin].
    injection Hin as ->. split; [exact Hvalid|]. now exists d1, built, d2.
Qed.

(** X5. [create] and [edit] never look a record up, count or soft-delete:
    of the repository they call [save] alone, at most once, and they leave
    every options object as it was. *)
Theorem pipelines_only_save (uuid : string) (data : T_DTO) w :
  (Forall (fun ev => is_query ev = false) (issued w (snd (creating data w)))
   /\ count is_save (issued w (snd (creating data w))) <= 1
   /\ heap (snd (creating data w)) = heap w)
  /\ (Forall (fun ev => is_query ev = false) (issued w (snd (editing uuid data w)))
      /\ count is_save (issued w (snd (editing uuid data w))) <= 1
      /\ heap (snd (editing uuid data w)) = heap w).
Proof.
  split.
  - destruct (create_cases data w)
      as [[_ Hrun]|[[_ (e & d1 & _ & Hrun)]|[[_ (d1 & e & d2 & _ & _ & Hrun)]
         |[_ (d1 & built & d2 & _ & _ & Hrun)]]]];
      rewrite Hrun; simpl; rewrite ?issued_refl, ?issued_app;
      (split; [repeat constructor|split; [cbv; lia|reflexivity]]).
  - destruct (edit_cases uuid data w)
      as [[_ Hrun]|[[_ (e & d1 & _ & Hrun)]|[[_ (d1 & e & d2 & _ & _ & Hrun)]
         |[_ (d1 & built & d2 & _ & _ & Hrun)]]]];
      rewrite Hrun; simpl; rewrite ?issued_refl, ?issued_app;
      (split; [repeat constructor|split; [cbv; lia|reflexivity]]).
Qed.

End PipelineFailures.

(** ** [edit] against [create] *)

Section EditAsCreate.

Context {VE DB T_DTO : Type}.
Variable repository : Repo.t VE DB.
Variable plainToInstance : T_DTO -> T_DTO.
Variable validate : T_DTO -> list VE.
Variable buildPartial : T_DTO -> Async VE DB Obj.
Variable validateBeforeEdit : string -> T_DTO -> Async VE DB unit.
Implicit Types w : World DB T_DTO.

Lemma forceUuid_run (uuid : string) (dto : T_DTO) (d : DB) :
  forceUuid uuid buildPartial dto d
  = (outcome_map (insert "uuid" (VStr uuid)) (fst (buildPartial dto d)),
     snd (buildPartial dto d)).
Proof. unfold forceUuid. now destruct (buildPartial dto d). Qed.

(** X6. [edit uuid] is [create] run with the edit hook at [uuid] and with
    the builder that overwrites [uuid] in what [buildPartial] resolves to:
    same result, same persistence state, same calls step for step. *)
Theorem edit_is_create_with_forced_uuid (uuid : string) (data : T_DTO) w :
  let edited :=
    edit repository plainToInstance validate buildPartial validateBeforeEdit
         uuid data w in
  let created :=
    create repository plainToInstance validate (forceUuid uuid buildPartial)
           (validateBeforeEdit uuid) data w in
  fst edited = fst created
  /\ db (snd edited) = db (snd created)
  /\ heap (snd edited) = heap (snd created)
  /\ asCreate <$> issued w (snd edited) = issued w (snd created).
Proof.
  intros edited created. subst edited created.
  destruct (edit_cases repository plainToInstance validate buildPartial
                       validateBeforeEdit uuid data w)
    as [[Hbad Hrun]|[[Hvalid (e & d1 & Hhook & Hrun)]
       |[[Hvalid (d1 & e & d2 & Hhook & Hbuild & Hrun)]
       |[Hvalid (d1 & built & d2 & Hhook & Hbuild & Hrun)]]]];
    rewrite Hrun; clear Hrun.
  - unfold create.
    erewrite bind_rejected by (apply validateDto_invalid; exact Hbad).
    simpl. rewrite issued_refl. now repeat split.
  - rewrite (create_hook_rejected repository plainToInstance validate
               (forceUuid uuid buildPartial) (validateBeforeEdit uuid)
               data w e d1 Hvalid Hhook).
    simpl. rewrite !issued_app. now repeat split.
  - rewrite (create_builder_rejected repository plainToInstance validate
               (forceUuid uuid buildPartial) (validateBeforeEdit uuid)
               data w d1 e d2 Hvalid Hhook)
      by (rewrite forceUuid_run, Hbuild; reflexivity).
    simpl. rewrite !issued_app. now repeat split.
  - rewrite (create_resolved_builder repository plainToInstance validate
               (forceUuid uuid buildPartial) (validateBeforeEdit uuid)
               data w d1 (<["uuid" := VStr uuid]> built) d2 Hvalid Hhook)
      by (rewrite forceUuid_run, Hbuild; reflexivity).
    simpl. rewrite !issued_app. now repeat split.
Qed.

End EditAsCreate.

(** ** Repeated and failing searches *)

Section Searches.

Context {VE DB T_DTO : Type}.
Variable repository : Repo.t VE DB.
Implicit Types w : World DB T_DTO.

Local Abbreviation buildOptions := (@buildOptionsToFilter VE DB T_DTO).
Local Abbreviation object_at w options := (heap w <$> options).

(** Once [buildOptionsToFilter] has run, the guard is off. *)
Lemma buildOptionsToFilter_settles (options : option loc) w w1 (l : loc) :
  buildOptions options w = (Resolved options, w1) ->
  options = Some l ->
  searching (heap w1 l) = false.
Proof.
  intros Hrun ->. destruct (searching (heap w l)) eqn:Hcond.
  - destruct (proj1 (searching_true _) Hcond) as (fs & s & Hfs & Hne & Hs & Hne').
    destruct (buildOptionsToFilter_rewrites (VE:=VE) l w fs s Hfs Hne Hs Hne')
      as (w' & Hrun' & _ & _ & _ & Hl).
    rewrite Hrun' in Hrun. injection Hrun as <-. rewrite Hl.
    unfold searching. simpl. apply andb_false_r.
  - rewrite (buildOptionsToFilter_unchanged (VE:=VE) (Some l) w) in Hrun
      by (now intros l0 [= <-]).
    now injection Hrun as <-.
Qed.

(** X7. [buildOptionsToFilter] is idempotent: run on the world it has left,
    it returns the same reference and changes nothing. *)
Theorem buildOptionsToFilter_idempotent (options : option loc) w :
  buildOptions options (snd (buildOptions options w))
  = (Resolved options, snd (buildOptions options w)).
Proof.
  destruct (buildOptionsToFilter_keeps_bounds (VE:=VE) options w)
    as (w1 & Hrun & _).
  rewrite Hrun. simpl. apply buildOptionsToFilter_unchanged.
  intros l Hl. exact (buildOptionsToFilter_settles options w w1 l Hrun Hl).
Qed.

(** X8. [filter] issues exactly one repository call, [findAndCount], on
    options whose guard is off (no non-empty [search] beside non-empty
    [searchFields] reaches the layer); it rejects exactly when that call
    rejects, with the same error, and the persistence state is the one the
    call left. *)
Theorem filter_single_query (options : option loc) w :
  exists arg,
    issued w (snd (filter repository options w)) = [EFindAndCount arg]
    /\ (forall o, arg = Some o -> searching o = false)
    /\ db (snd (filter repository options w))
       = snd (Repo.findAndCount repository arg (db w))
    /\ (forall e,
           fst (filter repository options w) = Rejected e
           <-> fst (Repo.findAndCount repository arg (db w)) = Rejected e).
Proof.
  destruct (filter_run repository options w) as (w1 & Hbuild & Hrun).
  exists (object_at w1 options). rewrite Hrun. simpl.
  split; [apply issued_app|]. split.
  - intros o Harg. destruct options as [l|]; [|discriminate].
    injection Harg as <-.
    exact (buildOptionsToFilter_settles (Some l) w w1 l Hbuild eq_refl).
  - split; [reflexivity|]. intros e.
    destruct (fst (Repo.findAndCount repository (object_at w1 options) (db w)));
      simpl; split; congruence.
Qed.

(** X9. A second [filter] on the same options object sends the layer the
    very options the first one sent, and leaves the object as the first
    left it. *)
Theorem filter_again_repeats_query (options : option loc) w :
  issued (snd (filter repository options w))
         (snd (filter repository options (snd (filter repository options w))))
  = issued w (snd (filter repository options w))
  /\ heap (snd (filter repository options (snd (filter repository options w))))
     = heap (snd (filter repository options w)).
Proof.
  destruct (filter_run repository options w) as (w1 & Hbuild & Hrun).
  rewrite Hrun. simpl.
  set (w2 := mkWorld (heap w1) _ _).
  assert (Hsame : buildOptions options w2 = (Resolved options, w2)).
  { apply buildOptionsToFilter_unchanged. intros l Hl. subst w2. simpl.
    exact (buildOptionsToFilter_settles options w w1 l Hbuild Hl). }
  destruct (filter_run repository options w2) as (w3 & Hbuild' & Hrun').
  rewrite Hsame in Hbuild'. injection Hbuild' as <-.
  rewrite Hrun'. simpl. split; [|reflexivity].
  rewrite issued_app. subst w2. now rewrite issued_app.
Qed.

(** X10. [filter] called without options queries the layer with
    [undefined], touches no options object, and answers with [limit] and
    [offset] absent. *)
Theorem filter_without_options w :
  filter repository None w
  = (outcome_map (fun res => mkResponse (fst res) (snd res) None None)
                 (fst (Repo.findAndCount repository None (db w))),
     mkWorld (heap w) (snd (Repo.findAndCount repository None (db w)))
             (trace w ++ [EFindAndCount None])).
Proof.
  destruct (filter_run repository None w) as (w1 & Hbuild & Hrun).
  injection Hbuild as <-. exact Hrun.
Qed.

(** X11. The options [filter] sends to the layer carry the [take] and
    [skip] the caller passed: searching does not lose the page bounds. *)
Theorem filter_queries_with_caller_bounds (options : option loc) w :
  exists arg,
    issued w (snd (filter repository options w)) = [EFindAndCount arg]
    /\ arg ≫= take = object_at w options ≫= take
    /\ arg ≫= skip = object_at w options ≫= skip.
Proof.
  destruct (filter_run repository options w) as (w1 & Hbuild & Hrun).
  exists (object_at w1 options). rewrite Hrun. simpl.
  split; [apply issued_app|].
  destruct (buildOptionsToFilter_keeps_bounds (VE:=VE) (T_DTO:=T_DTO) options w)
    as (w1' & Hbuild' & _ & _ & Hbounds).
  rewrite Hbuild in Hbuild'. injection Hbuild' as <-.
  destruct options as [l|]; simpl; [|now split].
  destruct (Hbounds l eq_refl) as [-> ->]. now split.
Qed.

End Searches.

(** ** Failing and repeated runs of the book service *)

Section BookRuns.

Import Sample.

Lemma create_rejections_propagate_witness :
  validate (plainToInstance dune) = []
  /\ fst (create repository plainToInstance validate buildPartial
                 (fun _ => refuse) dune start)
     = Rejected (ServiceException (mkServiceException "Livro ja cadastrado." []))
  /\ issued start (snd (create repository plainToInstance validate buildPartial
                               (fun _ => refuse) dune start))
     = [EValidateBeforeCreate dune]
  /\ fst (createBookRejecting dune start) = Rejected (OtherError "NotFound")
  /\ issued start (snd (createBookRejecting dune start))
     = [EValidateBeforeCreate dune; EBuildPartial dune].
Proof.
  split; [reflexivity|].
  destruct (proj1 (create_rejections_propagate
                     repository plainToInstance validate buildPartial
                     (fun _ => refuse) dune start eq_refl)
                  _ table eq_refl) as (Hres & _ & Hissued).
  split; [exact Hres|]. split; [exact Hissued|].
  destruct (proj2 (create_rejections_propagate
                     repository plainToInstance validate buildPartialRejects
                     (fun _ => noHook) dune start eq_refl)
                  table _ table eq_refl eq_refl) as (Hres' & _ & Hissued').
  split; [exact Hres'|exact Hissued'].
Defined.

Lemma edit_rejections_propagate_witness :
  validate (plainToInstance duneAsB) = []
  /\ fst (edit repository plainToInstance validate buildPartial
               (fun _ _ => refuse) uuidA duneAsB start)
     = Rejected (ServiceException (mkServiceException "Livro ja cadastrado." []))
  /\ issued start (snd (edit repository plainToInstance validate buildPartial
                             (fun _ _ => refuse) uuidA duneAsB start))
     = [EValidateBeforeEdit uuidA duneAsB]
  /\ issued start (snd (edit repository plainToInstance validate buildPartialRejects
                             (fun _ _ => noHook) uuidA duneAsB start))
     = [EValidateBeforeEdit uuidA duneAsB; EBuildPartial duneAsB].
Proof.
  split; [reflexivity|].
  destruct (proj1 (edit_rejections_propagate
                     repository plainToInstance validate buildPartial
                     (fun _ _ => refuse) uuidA duneAsB start eq_refl)
                  _ table eq_refl) as (Hres & _ & Hissued).
  split; [exact Hres|]. split; [exact Hissued|].
  destruct (proj2 (edit_rejections_propagate
                     repository plainToInstance validate buildPartialRejects
                     (fun _ _ => noHook) uuidA duneAsB start eq_refl)
                  table _ table eq_refl eq_refl) as (_ & _ & Hissued').
  exact Hissued'.
Defined.

Lemma create_saves_only_validated_witness :
  ESave dune ∈ issued start (snd (createBook dune start))
  /\ validate (plainToInstance dune) = []
  /\ exists d1 d2 : MemRepo.Table,
       noHook (db start) = (Resolved (VE:=string) tt, d1)
       /\ buildPartial (DB:=MemRepo.Table) dune d1 = (Resolved dune, d2).
Proof.
  assert (Hin : ESave dune ∈ issued start (snd (createBook dune start))).
  { vm_compute. apply elem_of_cons; right. apply elem_of_cons; right.
    apply elem_of_cons; left. reflexivity. }
  split; [exact Hin|].
  destruct (create_saves_only_validated
              repository plainToInstance validate buildPartial (fun _ => noHook)
              dune start dune Hin) as (Hvalid & d1 & d2 & Hhook & Hbuild).
  split; [exact Hvalid|]. exists d1, d2. split; [exact Hhook|exact Hbuild].
Defined.

Lemma edit_saves_only_validated_witness :
  ESave (<["uuid" := VStr uuidA]> duneAsB)
    ∈ issued start (snd (editBook uuidA duneAsB start))
  /\ validate (plainToInstance duneAsB) = [].
Proof.
  assert (Hin : ESave (<["uuid" := VStr uuidA]> duneAsB)
                  ∈ issued start (snd (editBook uuidA duneAsB start))).
  { vm_compute. apply elem_of_cons; right. apply elem_of_cons; right.
    apply elem_of_cons; left. reflexivity. }
  split; [exact Hin|].
  exact (proj1 (edit_saves_only_validated
                  repository plainToInstance validate buildPartial
                  (fun _ _ => noHook) uuidA duneAsB start _ Hin)).
Defined.

End BookRuns.
